(** * Investment dashboard: the presentation layer and the thesis endpoint

  A shallow embedding of the TypeScript/JavaScript sources of the
  investment-automation repository, and the properties of the
  specification that are settled against it.

  - [Js]                the few JavaScript primitives the sources rely on
  - [Control]           completions (normal / return / throw) over a state
  - [StockTypes]        docs-src/src/types/stock.ts
  - [Dashboard]         the jQuery/DataTables page (docs/js/app.js)
  - [ThesisApi]         api/thesis.ts
  - [StockColumns]      docs-src/src/components/stockColumns.tsx
  - [ThesisGenerator]   docs-src/src/components/ThesisGenerator.tsx
  - [App]               docs-src/src/App.tsx
  - [ColumnPreferences] docs-src/src/hooks/useColumnPreferences.ts
  - [Merger]            the aggregation rules of the data merger, whose
                        Python source is not part of the sources at hand
  - [Fetcher]           the fields the fundamentals fetcher writes, whose
                        Python source is not part of them either
  - [UseStockData]      docs-src/src/hooks/useStockData.ts
  - [FilterBar], [ColumnPicker], [FilteringApp]
                        the multi-select, the column picker and the App
                        that filters the stocks itself
  - [Deployment]        the endpoint as the Generate button reaches it *)

From Stdlib Require Import ZArith QArith String Ascii List Bool Lia Lqa.
From Stdlib Require Import Permutation Sorted OrderedTypeEx.
From stdpp Require Import base option list strings gmap pretty.

Local Open Scope string_scope.
Local Open Scope list_scope.

(* ===================================================================== *)
(** * JavaScript primitives *)
(* ===================================================================== *)

Module Js.

(** A JavaScript [number]. Every finite double is a rational, so the
    comparisons of the sources are those of [Q] on finite values. *)
Inductive number : Type :=
| Fin (q : Q)
| NaN
| PosInf
| NegInf.

(** [Number.isFinite] *)
Definition isFinite (n : number) : bool :=
  match n with Fin _ => true | _ => false end.

(** [a < b] on numbers; every comparison with [NaN] is false. *)
Definition lt (a b : number) : bool :=
  match a, b with
  | Fin x, Fin y => match Qcompare x y with Lt => true | _ => false end
  | Fin _, PosInf => true
  | NegInf, Fin _ => true
  | NegInf, PosInf => true
  | _, _ => false
  end.

(** [a >= b] on numbers. *)
Definition ge (a b : number) : bool :=
  match a, b with
  | Fin x, Fin y => match Qcompare x y with Lt => false | _ => true end
  | PosInf, Fin _ | PosInf, PosInf | PosInf, NegInf => true
  | Fin _, NegInf | NegInf, NegInf => true
  | _, _ => false
  end.

(** A value of type [number | string | null | undefined]. *)
Inductive value : Type :=
| VNum (n : number)
| VStr (s : string)
| VNull
| VUndefined.

(** Truthiness of a string: only the empty string is falsy. *)
Definition truthy (s : string) : bool :=
  match s with EmptyString => false | String _ _ => true end.

(** [a || b] where [a] is a string or null/undefined. *)
Definition or_else (a : option string) (b : string) : string :=
  match a with
  | Some s => if truthy s then s else b
  | None => b
  end.

(** Strings. A JavaScript string is a sequence of UTF-16 code units, and
    the sources take text apart code unit by code unit ([length],
    [substring], [split], [trim], [toLowerCase], [===]). A string is
    modelled by [string] with one [ascii] for each code unit, which covers
    the code units U+0000 to U+00FF: [String.length] is [.length],
    [String.substring] is [.substring] and [String.eqb] is [===]. *)

(** The white space and line terminators that [String.prototype.trim]
    strips, among these code units: tab, line feed, vertical tab, form
    feed, carriage return, space, and the no-break space U+00A0. *)
Definition is_white_space (c : ascii) : bool :=
  let n := nat_of_ascii c in
  (Nat.eqb n 9 || Nat.eqb n 10 || Nat.eqb n 11 || Nat.eqb n 12
   || Nat.eqb n 13 || Nat.eqb n 32 || Nat.eqb n 160)%bool.

Fixpoint trimStart (s : string) : string :=
  match s with
  | String c rest => if is_white_space c then trimStart rest else s
  | EmptyString => EmptyString
  end.

Fixpoint trimEnd (s : string) : string :=
  match s with
  | String c rest =>
      match trimEnd rest with
      | EmptyString => if is_white_space c then EmptyString else String c EmptyString
      | rest' => String c rest'
      end
  | EmptyString => EmptyString
  end.

(** [s.trim()] *)
Definition trim (s : string) : string := trimEnd (trimStart s).

(** [s.split(sep)] for a one-character separator: never the empty list,
    [''.split(',')] is [['']]. *)
Fixpoint split (sep : ascii) (s : string) : list string :=
  match s with
  | EmptyString => [EmptyString]
  | String c rest =>
      if Ascii.eqb c sep then EmptyString :: split sep rest
      else match split sep rest with
           | piece :: pieces => String c piece :: pieces
           | [] => [String c EmptyString]
           end
  end.

(** The character [c] occurs in [s]. *)
Fixpoint has_char (c : ascii) (s : string) : bool :=
  match s with
  | String c' rest => (Ascii.eqb c' c || has_char c rest)%bool
  | EmptyString => false
  end.

(** [l.join(sep)] *)
Fixpoint join (sep : string) (l : list string) : string :=
  match l with
  | [] => EmptyString
  | [x] => x
  | x :: rest => x +:+ sep +:+ join sep rest
  end.

(** [l.includes(x)] on an array of strings. *)
Definition includes (l : list string) (x : string) : bool :=
  existsb (String.eqb x) l.

(** [l.slice(0, n)] *)
Definition slice0 {A} (n : nat) (l : list A) : list A := firstn n l.

(** [a <= b] on numbers. *)
Definition le (a b : number) : bool :=
  match a, b with
  | Fin x, Fin y => match Qcompare x y with Gt => false | _ => true end
  | Fin _, PosInf | NegInf, Fin _ | NegInf, PosInf => true
  | PosInf, PosInf | NegInf, NegInf => true
  | _, _ => false
  end.

(** [a === b] on numbers. *)
Definition strict_eq (a b : number) : bool :=
  match a, b with
  | Fin x, Fin y => match Qcompare x y with Eq => true | _ => false end
  | PosInf, PosInf | NegInf, NegInf => true
  | _, _ => false
  end.

(** [l.sort()] on an array of strings: the default comparison orders
    strings by their code units. *)
Fixpoint sort_insert (x : string) (l : list string) : list string :=
  match l with
  | [] => [x]
  | y :: rest => if String.leb x y then x :: l else y :: sort_insert x rest
  end.

Fixpoint sort (l : list string) : list string :=
  match l with
  | [] => []
  | x :: rest => sort_insert x (sort rest)
  end.

End Js.

(* ===================================================================== *)
(** * Completions: straight-line code with [return], [throw], [try] *)
(* ===================================================================== *)

Module Control.

(** What a thrown value looks like to [err instanceof Error ? err.message : ...]. *)
Inductive exn : Type :=
| ErrorObject (message : string)
| OtherThrown.

Section Completion.
Context {S R : Type}.

(** How a block of statements ends: it falls through with a value, it
    executes [return r], or it throws. *)
Inductive completion (A : Type) : Type :=
| Normal (a : A)
| Return (r : R)
| Throw (e : exn).

Definition eff (A : Type) : Type := S -> completion A * S.

Definition ret {A} (a : A) : eff A := fun s => (Normal A a, s).

Definition bind {A B} (m : eff A) (k : A -> eff B) : eff B :=
  fun s =>
    match m s with
    | (Normal _ a, s') => k a s'
    | (Return _ r, s') => (Return B r, s')
    | (Throw _ e, s') => (Throw B e, s')
    end.

(** [return r;] *)
Definition return_ {A} (r : R) : eff A := fun s => (Return A r, s).

(** [throw e;] *)
Definition throw {A} (e : exn) : eff A := fun s => (Throw A e, s).

Definition get : eff S := fun s => (Normal S s, s).
Definition modify (f : S -> S) : eff unit := fun s => (Normal unit tt, f s).

(** [try { m } catch (e) { h e }] *)
Definition try_catch {A} (m : eff A) (h : exn -> eff A) : eff A :=
  fun s =>
    match m s with
    | (Throw _ e, s') => h e s'
    | other => other
    end.

(** [try { m } finally { f }]: [f] runs however [m] completes, and the
    completion of [m] stands unless [f] itself returns or throws. *)
Definition try_finally {A} (m : eff A) (f : eff unit) : eff A :=
  fun s =>
    let '(c, s') := m s in
    match f s' with
    | (Normal _ _, s'') => (c, s'')
    | (Return _ r, s'') => (Return A r, s'')
    | (Throw _ e, s'') => (Throw A e, s'')
    end.

(** The result of calling a function whose body is [m]: falling off the
    end returns the fall-through value converted by [k]. *)
Definition call {A} (m : eff A) (k : A -> R) (s : S) : (R + exn) * S :=
  match m s with
  | (Normal _ a, s') => (inl (k a), s')
  | (Return _ r, s') => (inl r, s')
  | (Throw _ e, s') => (inr e, s')
  end.
End Completion.

Arguments completion : clear implicits.
Arguments eff : clear implicits.

#[export] Instance eff_ret {S R} : MRet (eff S R) := fun A => @ret S R A.
#[export] Instance eff_bind {S R} : MBind (eff S R) := fun A B k m => @bind S R A B m k.

End Control.

(* ===================================================================== *)
(** * types/stock.ts *)
(* ===================================================================== *)

Module StockTypes.
Import Js.

(** [number | string]: the type of the numeric fundamentals. *)
Inductive num_or_str : Type :=
| Num (n : number)
| Str (s : string).

Definition to_value (v : num_or_str) : value :=
  match v with Num n => VNum n | Str s => VStr s end.

Record Activity := {
  action : string;
  percentage : option number;
}.

Record Investor := {
  name : string;
  fund_id : string;
  portfolio_pct : option number;
  shares : option number;
  activity : Activity;
  activity_raw : string;
  source_url : string;
}.

Record SubstackMention := {
  publication : string;
  article_title : string;
  article_url : string;
  mention_thesis : string;
  published_date : option string;
}.

Record DataromaData := { investors : list Investor }.
Record SubstackData := { mentions : list SubstackMention }.

Record Fundamentals := {
  pe_ratio : num_or_str;
  forward_pe : num_or_str;
  pb_ratio : num_or_str;
  peg_ratio : num_or_str;
  week_52_high : num_or_str;
  week_52_low : num_or_str;
  pct_above_52w_low : num_or_str;
  pct_below_52w_high : num_or_str;
  current_price : num_or_str;
  previous_close : num_or_str;
  total_cash : num_or_str;
  total_debt : num_or_str;
  long_term_debt : num_or_str;
  net_debt : num_or_str;
  market_cap : num_or_str;
  insider_pct : num_or_str;
  institutional_pct : num_or_str;
  sector : string;
  industry : string;
  country : string;
  currency : string;
  exchange : string;
  is_international : bool;
}.

Record Stock := {
  ticker : string;
  company_name : string;
  sources : list string;
  dataroma_data : DataromaData;
  substack_data : SubstackData;
  fundamentals : Fundamentals;
  stockanalysis_link : string;
  is_etf : bool;
  thesis : option string;
  aggregate_activity : string;
  investor_count : Z;
  mention_count : Z;
}.

Record Stats := {
  dataroma_stocks : Z;
  substack_stocks : Z;
  both_sources : Z;
  dataroma_only : Z;
  substack_only : Z;
}.

Record StockData := {
  last_updated : string;
  total_stocks : Z;
  stats : Stats;
  stocks : list Stock;
}.

Inductive column_group : Type := basic | valuation | quality | income | other.

Record ColumnConfig := {
  id : string;
  label : string;
  visible : bool;
  group : column_group;
}.

Definition DEFAULT_COLUMNS : list ColumnConfig := [
  {| id := "ticker"; label := "Ticker"; visible := true; group := basic |};
  {| id := "company_name"; label := "Company"; visible := true; group := basic |};
  {| id := "pe_ratio"; label := "PE Ratio"; visible := true; group := valuation |};
  {| id := "pb_ratio"; label := "PB Ratio"; visible := true; group := valuation |};
  {| id := "week_52_low"; label := "52W Low"; visible := true; group := valuation |};
  {| id := "week_52_high"; label := "52W High"; visible := true; group := valuation |};
  {| id := "pct_above_52w_low"; label := "% Above Low"; visible := true; group := valuation |};
  {| id := "pct_below_52w_high"; label := "% Below High"; visible := true; group := valuation |};
  {| id := "sources"; label := "Sources"; visible := true; group := basic |};
  {| id := "investors"; label := "Investors"; visible := true; group := basic |};
  {| id := "activity"; label := "Activity"; visible := true; group := basic |};
  {| id := "market_cap"; label := "Market Cap"; visible := false; group := valuation |};
  {| id := "peg_ratio"; label := "PEG"; visible := false; group := valuation |};
  {| id := "forward_pe"; label := "Fwd PE"; visible := false; group := valuation |};
  {| id := "total_cash"; label := "Cash"; visible := false; group := valuation |};
  {| id := "total_debt"; label := "Total Debt"; visible := false; group := valuation |};
  {| id := "net_debt"; label := "Net Debt"; visible := false; group := valuation |};
  {| id := "insider_pct"; label := "Insider %"; visible := false; group := other |};
  {| id := "institutional_pct"; label := "Inst %"; visible := false; group := other |};
  {| id := "sector"; label := "Sector"; visible := false; group := basic |};
  {| id := "industry"; label := "Industry"; visible := false; group := basic |};
  {| id := "current_price"; label := "Price"; visible := false; group := valuation |};
  {| id := "is_etf"; label := "ETF"; visible := false; group := basic |};
  {| id := "thesis"; label := "Thesis"; visible := false; group := basic |};
  {| id := "link"; label := "Link"; visible := true; group := basic |}
].

(** [{ ...stock, thesis }] *)
Definition with_thesis (stock : Stock) (t : option string) : Stock :=
  {| ticker := ticker stock;
     company_name := company_name stock;
     sources := sources stock;
     dataroma_data := dataroma_data stock;
     substack_data := substack_data stock;
     fundamentals := fundamentals stock;
     stockanalysis_link := stockanalysis_link stock;
     is_etf := is_etf stock;
     thesis := t;
     aggregate_activity := aggregate_activity stock;
     investor_count := investor_count stock;
     mention_count := mention_count stock |}.

(** [{ ...col, visible }] *)
Definition with_visible (col : ColumnConfig) (v : bool) : ColumnConfig :=
  {| id := id col; label := label col; visible := v; group := group col |}.

End StockTypes.


(* ===================================================================== *)
(** * docs/js/app.js: the jQuery/DataTables dashboard *)
(* ===================================================================== *)

Module Dashboard.
Import Js.

(** The double quote character, for the HTML attributes of the templates. *)
Definition dq : string := String (ascii_of_nat 34) EmptyString.

(** [s.includes(sub)] on strings. *)
Fixpoint str_includes (s sub : string) : bool :=
  (String.prefix sub s ||
   match s with
   | String _ rest => str_includes rest sub
   | EmptyString => false
   end)%bool.

(** A row of [data.stocks] as this page reads it: every property is the
    one named by a [data:] option of [initializeTable]. *)
Record Row := {
  ticker : string;
  company_name : string;
  pe_ratio : value;
  pb_ratio : value;
  week_52_high : value;
  week_52_low : value;
  peg_ratio : value;
  insider_pct : value;
  sources : list string;
  dataroma_data_investors : option (list string);
  dataroma_data_activity : option string;
  substack_data_thesis : option string;
  stockanalysis_link : string;
}.

Record Data := {
  last_updated : string;
  total_stocks : Z;
  stocks : list Row;
}.

(** What a jQuery call leaves in an element. *)
Inductive content : Type :=
| text_number (n : Z)
| html (s : string).

(** [data.stocks.filter(s => s.sources.includes('Dataroma')).length] *)
Definition dataromaCount (data : Data) : nat :=
  length (List.filter (fun s => includes (sources s) "Dataroma") (stocks data)).

(** [data.stocks.filter(s => s.sources.includes('Substack')).length] *)
Definition substackCount (data : Data) : nat :=
  length (List.filter (fun s => includes (sources s) "Substack") (stocks data)).

(** [data.stocks.filter(s => s.sources.includes('Dataroma') &&
    s.sources.includes('Substack')).length] *)
Definition bothCount (data : Data) : nat :=
  length (List.filter
            (fun s => includes (sources s) "Dataroma" && includes (sources s) "Substack")
            (stocks data)).

Section UpdateMetadata.
(** [new Date(s).toLocaleString()], a browser service. *)
Variable date_toLocaleString : string -> string.

(** [updateMetadata(data)]: the page, as a map from selectors to contents. *)
Definition updateMetadata (data : Data) (page : gmap string content) : gmap string content :=
  let lastUpdated := date_toLocaleString (last_updated data) in
  let page := <["#last-updated" :=
                 html ("<i class=" +:+ dq +:+ "fas fa-clock" +:+ dq +:+ "></i> Last Updated: "
                       +:+ lastUpdated)]> page in
  let page := <["#total-stocks" := text_number (total_stocks data)]> page in
  let page := <["#dataroma-count" := text_number (Z.of_nat (dataromaCount data))]> page in
  let page := <["#substack-count" := text_number (Z.of_nat (substackCount data))]> page in
  <["#both-sources" := text_number (Z.of_nat (bothCount data))]> page.
End UpdateMetadata.

(** The [data:] option of each column of [initializeTable], in order. *)
Definition columns_data : list string := [
  "ticker"; "company_name"; "pe_ratio"; "pb_ratio"; "week_52_high";
  "week_52_low"; "peg_ratio"; "insider_pct"; "sources";
  "dataroma_data.investors"; "dataroma_data.activity";
  "substack_data.thesis"; "stockanalysis_link"
].

(** [order: [[2, 'asc']]] *)
Definition order : list (nat * string) := [(2%nat, "asc")].

(** The [render] of the [dataroma_data.activity] column; [None] is a
    missing property. *)
Definition render_activity (data : option string) : string :=
  match data with
  | None => "-"
  | Some data =>
      if (negb (truthy data) || String.eqb data "Hold")%bool then "-"
      else
        let badgeClass :=
          if str_includes data "New" then "activity-new"
          else if str_includes data "Increased" then "activity-increase"
          else if str_includes data "Decreased" then "activity-decrease"
          else "bg-secondary" in
        "<span class=" +:+ dq +:+ "badge " +:+ badgeClass +:+ dq +:+ ">" +:+ data +:+ "</span>"
  end.

(** The replacement [map[m]] of one character: ampersand, less-than,
    greater-than, double quote and apostrophe are replaced by entities. *)
Definition escape_char (c : ascii) : string :=
  let n := nat_of_ascii c in
  if Nat.eqb n 38 then "&amp;"
  else if Nat.eqb n 60 then "&lt;"
  else if Nat.eqb n 62 then "&gt;"
  else if Nat.eqb n 34 then "&quot;"
  else if Nat.eqb n 39 then "&#039;"
  else String c EmptyString.

(** [escapeHtml(text)] *)
Fixpoint escapeHtml (text : string) : string :=
  match text with
  | String c rest => escape_char c +:+ escapeHtml rest
  | EmptyString => EmptyString
  end.

(** The [render] of the [company_name] column. *)
Definition render_company_name (data : string) : string :=
  if (30 <? String.length data)%nat then String.substring 0 30 data +:+ "..." else data.

(** The [render] of the [substack_data.thesis] column. *)
Definition render_thesis (data : option string) : string :=
  match data with
  | None => "-"
  | Some data =>
      if negb (truthy data) then "-"
      else
        let short :=
          if (50 <? String.length data)%nat then String.substring 0 50 data +:+ "..."
          else data in
        "<span class=" +:+ dq +:+ "thesis-cell" +:+ dq +:+ " title=" +:+ dq
        +:+ escapeHtml data +:+ dq +:+ ">" +:+ escapeHtml short +:+ "</span>"
  end.

End Dashboard.

(* ===================================================================== *)
(** * api/thesis.ts: the password-gated edge function *)
(* ===================================================================== *)

Module ThesisApi.
Import Js Control.

(** [interface ThesisRequest]; [None] is a property the JSON body lacks.
    A body that is a JSON number, string or array has none of the four. *)
Record ThesisRequest := {
  ticker : option string;
  company_name : option string;
  investor_names : option (list string);
  password : option string;
}.

(** [interface ThesisResponse]; [None] is an absent optional property. *)
Record ThesisResponse := {
  success : bool;
  thesis : option string;
  error : option string;
  response_ticker : option string;
}.

(** What [await request.json()] and the destructuring after it meet. *)
Inductive request_body : Type :=
| BodyUnreadable            (* request.json() rejects *)
| BodyNull                  (* the JSON value null: destructuring throws *)
| BodyObject (b : ThesisRequest).

Record Request := {
  method : string;
  body : request_body;
}.

(** [new Response(body, { status, headers })]; [None] is the [null] body. *)
Record Response := {
  response_body : option ThesisResponse;
  status : Z;
  headers : list (string * string);
}.

(** The answer of the Perplexity API to one [fetch]. *)
Record PerplexityResponse := {
  ok : bool;
  text : option string;             (* None: reading the body rejects *)
  content : option (option string); (* json(): None rejects, Some c is
                                       choices?.[0]?.message?.content *)
}.

Inductive fetch_outcome : Type :=
| Rejected (e : exn)
| Resolved (r : PerplexityResponse).

(** What the handler does to the outside world. *)
Inductive event : Type :=
| PerplexityFetch (authorization prompt : string)
| ConsoleError (label : string).

Definition is_fetch (e : event) : bool :=
  match e with PerplexityFetch _ _ => true | ConsoleError _ => false end.

Definition json_headers : list (string * string) :=
  [("Content-Type", "application/json"); ("Access-Control-Allow-Origin", "*")].

(** [new Response(JSON.stringify({ success: false, error }), { status, ... })] *)
Definition failure (code : Z) (message : string) : Response :=
  {| response_body := Some {| success := false; thesis := None;
                              error := Some message; response_ticker := None |};
     status := code;
     headers := json_headers |}.

Definition preflight : Response :=
  {| response_body := None;
     status := 200;
     headers := [("Access-Control-Allow-Origin", "*");
                 ("Access-Control-Allow-Methods", "POST, OPTIONS");
                 ("Access-Control-Allow-Headers", "Content-Type")] |}.

(** [!x] for a string that may be undefined. *)
Definition falsy (x : option string) : bool :=
  match x with Some s => negb (truthy s) | None => true end.

(** [a !== b] for strings that may be undefined. *)
Definition strict_neq (a b : option string) : bool :=
  match a, b with
  | Some x, Some y => negb (String.eqb x y)
  | None, None => false
  | _, _ => true
  end.

Definition log (e : event) : eff (list event) Response unit :=
  modify (fun l => l ++ [e]).

Section Handler.
(** [process.env] and the network. *)
Variable env : gmap string string.
Variable perplexity : string -> string -> fetch_outcome.

(** [await fetch('https://api.perplexity.ai/chat/completions', ...)] *)
Definition fetch (authorization prompt : string)
  : eff (list event) Response PerplexityResponse :=
  log (PerplexityFetch authorization prompt);;
  match perplexity authorization prompt with
  | Rejected e => throw e
  | Resolved r => mret r
  end.

(** [await request.json()] followed by the destructuring of the body. *)
Definition request_json (request : Request) : eff (list event) Response ThesisRequest :=
  match body request with
  | BodyUnreadable => throw (ErrorObject "Unexpected end of JSON input")
  | BodyNull => throw (ErrorObject "Cannot destructure property of null")
  | BodyObject b => mret b
  end.

(** The prompt sent for a ticker that passed the checks. *)
Definition build_prompt (ticker : string) (company_name : option string)
    (investor_names : option (list string)) : string :=
  let investorList :=
    match investor_names with
    | Some names =>
        if (0 <? length names)%nat then join ", " (slice0 5 names) else "value investors"
    | None => "value investors"
    end in
  let companyInfo :=
    if falsy company_name then ticker
    else default "" company_name +:+ " (" +:+ ticker +:+ ")" in
  "Why might " +:+ investorList +:+ " be buying " +:+ companyInfo
  +:+ "? What's the investment thesis? Provide a concise answer in 2-3 lines maximum, focusing on the key bull case.".

(** [export default async function handler(request)] *)
Definition handler (request : Request) : eff (list event) Response Empty_set :=
  if String.eqb (method request) "OPTIONS" then return_ preflight
  else if negb (String.eqb (method request) "POST") then
    return_ (failure 405 "Method not allowed")
  else
    try_catch
      (b ← request_json request;
       let expectedPassword := env !! "THESIS_PASSWORD" in
       if falsy expectedPassword then return_ (failure 500 "Server not configured")
       else if strict_neq (password b) expectedPassword then
         return_ (failure 401 "Invalid password")
       else if falsy (ticker b) then return_ (failure 400 "Ticker is required")
       else
         let perplexityApiKey := env !! "PERPLEXITY_API_KEY" in
         if falsy perplexityApiKey then
           return_ (failure 500 "Perplexity API not configured")
         else
           let prompt :=
             build_prompt (default "" (ticker b)) (company_name b) (investor_names b) in
           perplexityResponse ← fetch ("Bearer " +:+ default "" perplexityApiKey) prompt;
           if negb (ok perplexityResponse) then
             match text perplexityResponse with
             | None => throw (ErrorObject "body stream is not readable")
             | Some errorText =>
                 log (ConsoleError "Perplexity API error:");;
                 return_ (failure 500 "Failed to generate thesis")
             end
           else
             match content perplexityResponse with
             | None => throw (ErrorObject "Unexpected token in JSON")
             | Some c =>
                 let thesis := or_else (trim <$> c) "" in
                 if negb (truthy thesis) then return_ (failure 500 "No thesis generated")
                 else
                   return_ {| response_body :=
                                Some {| success := true; thesis := Some thesis;
                                        error := None; response_ticker := ticker b |};
                              status := 200;
                              headers := json_headers |}
             end)
      (fun error =>
         log (ConsoleError "Thesis generation error:");;
         return_ (failure 500 "Internal server error")).

(** One invocation of the edge function, from an empty log. *)
Definition run (request : Request) : (Response + exn) * list event :=
  call (handler request) (fun never : Empty_set => match never with end) [].
End Handler.

(** The two shapes of the response contract. *)
Definition success_shape (r : ThesisResponse) : Prop :=
  success r = true /\ (exists t, thesis r = Some t) /\ error r = None.

Definition failure_shape (r : ThesisResponse) : Prop :=
  success r = false /\ (exists e, error r = Some e /\ truthy e = true) /\ thesis r = None.

Definition contract_shape (resp : Response) : Prop :=
  exists r, response_body resp = Some r /\ (success_shape r \/ failure_shape r).

(** The request carries the password the server is configured with. *)
Definition password_accepted (env : gmap string string) (request : Request) : Prop :=
  exists b p, body request = BodyObject b /\ password b = Some p
              /\ env !! "THESIS_PASSWORD" = Some p.

Definition fetches (l : list event) : list event := List.filter is_fetch l.

End ThesisApi.

(* ===================================================================== *)
(** * The output artifact as the specification names it *)
(* ===================================================================== *)

Module Artifact.

(** A property path on a stock record, outermost property first. *)
Definition path : Type := list string.

Definition path_eqb (p q : path) : bool :=
  (Nat.eqb (length p) (length q)
   && forallb (fun '(a, b) => String.eqb a b) (combine p q))%bool.

(** The field names the specification lists for the presentation layer;
    [fundamentals.*] is kept apart as a wildcard. *)
Definition listed_names : list path := [
  ["ticker"]; ["company_name"]; ["sources"];
  ["dataroma_data"; "investors"]; ["substack_data"; "mentions"];
  ["aggregate_activity"]; ["investor_count"]; ["mention_count"];
  ["stockanalysis_link"]
].

(** A path is listed when it is one of [listed_names] or a property of
    [fundamentals]. *)
Definition listed (p : path) : bool :=
  match p with
  | ["fundamentals"; _] => true
  | _ => existsb (path_eqb p) listed_names
  end.

End Artifact.

(* ===================================================================== *)
(** * components/stockColumns.tsx *)
(* ===================================================================== *)

Module StockColumns.
Import Js StockTypes Artifact.

(** A rendered React node, as far as the cells at hand need it. *)
#[local] Set Warnings "-register-all".
Inductive node : Type :=
| Text (s : string)
| Element (tag className : string) (attrs : list (string * string)) (children : list node).

(** [toLowerCase] on one code unit: the letters A to Z, and the capital
    letters U+00C0 to U+00DE of the Latin-1 supplement without the
    multiplication sign U+00D7, move up by 32; every other code unit
    below 256 is its own lower case. *)
Definition lower (c : ascii) : ascii :=
  let n := nat_of_ascii c in
  if ((65 <=? n) && (n <=? 90))%nat then ascii_of_nat (n + 32)
  else if ((192 <=? n) && (n <=? 222) && negb (n =? 215))%nat then ascii_of_nat (n + 32)
  else c.

Fixpoint toLowerCase (s : string) : string :=
  match s with
  | String c rest => String (lower c) (toLowerCase rest)
  | EmptyString => EmptyString
  end.

Section Formatting.
(** [n.toLocaleString(undefined, { maximumFractionDigits: 2 })] and
    [Number(s)], services of the JavaScript runtime. *)
Variable toLocaleString : number -> string.
Variable Number_of_string : string -> number.



Definition coerceNumber (v : value) : option number :=
  match v with
  | VNull | VUndefined => None
  | VNum n => if isFinite n then Some n else None
  | VStr s =>
      if (String.eqb (trim s) "" || String.eqb s "N/A")%bool then None
      else let parsed := Number_of_string s in
           if isFinite parsed then Some parsed else None
  end.

(** The [filterFn] of the [pe_ratio] column, on the cell value. *)
Definition pe_ratio_filterFn (cell : value) (filterValue : string) : bool :=
  if negb (truthy filterValue) then true
  else
    let v := coerceNumber cell in
    if String.eqb filterValue "na" then
      match v with None => true | Some _ => false end
    else
      match v with
      | None => false
      | Some x =>
          if String.eqb filterValue "lt10" then lt x (Fin 10)
          else if String.eqb filterValue "10-15" then ge x (Fin 10) && lt x (Fin 15)
          else if String.eqb filterValue "15-25" then ge x (Fin 15) && lt x (Fin 25)
          else if String.eqb filterValue "25-40" then ge x (Fin 25) && lt x (Fin 40)
          else if String.eqb filterValue "gt40" then ge x (Fin 40)
          else true
      end.
End Formatting.


Definition getActivityBadgeClass (activity : string) : string :=
  let action := toLowerCase activity in
  if (String.eqb action "new" || String.eqb action "buy")%bool then "bg-green-100 text-green-800"
  else if String.eqb action "add" then "bg-blue-100 text-blue-800"
  else if String.eqb action "sell" then "bg-red-100 text-red-800"
  else if String.eqb action "reduce" then "bg-orange-100 text-orange-800"
  else "bg-gray-100 text-gray-600".

(** The [cell] of the [activity] column. *)
Definition activity_cell (original : Stock) : node :=
  let activity := aggregate_activity original in
  if String.eqb activity "Hold" then Element "span" "text-gray-400" [] [Text "-"]
  else Element "span" ("px-2 py-1 text-xs rounded-full " +:+ getActivityBadgeClass activity)
         [] [Text activity].

(** One entry of the array built by [getStockColumns]: its [id], its
    accessor ([accessorKey] or [accessorFn]) and the property paths that the
    accessor, the cell and the filter of the entry read from the row. *)
Record ColumnDef := {
  col_id : string;
  accessor : option (Stock -> value);
  reads : list path;
}.

Definition of_count (n : Z) : value := VNum (Fin (inject_Z n)).

Definition fundamental (f : Fundamentals -> num_or_str) (row : Stock) : value :=
  to_value (f (fundamentals row)).

(** [x || 'N/A'] *)
Definition or_NA (s : string) : value := VStr (or_else (Some s) "N/A").

Definition getStockColumns : list ColumnDef := [
  {| col_id := "expander"; accessor := None; reads := [] |};
  {| col_id := "ticker";
     accessor := Some (fun row => VStr (ticker row));
     reads := [["ticker"]] |};
  {| col_id := "company_name";
     accessor := Some (fun row => VStr (company_name row));
     reads := [["company_name"]] |};
  {| col_id := "pe_ratio";
     accessor := Some (fundamental pe_ratio);
     reads := [["fundamentals"; "pe_ratio"]] |};
  {| col_id := "pb_ratio";
     accessor := Some (fundamental pb_ratio);
     reads := [["fundamentals"; "pb_ratio"]] |};
  {| col_id := "week_52_low";
     accessor := Some (fundamental week_52_low);
     reads := [["fundamentals"; "week_52_low"]] |};
  {| col_id := "week_52_high";
     accessor := Some (fundamental week_52_high);
     reads := [["fundamentals"; "week_52_high"]] |};
  {| col_id := "pct_above_52w_low";
     accessor := Some (fundamental pct_above_52w_low);
     reads := [["fundamentals"; "pct_above_52w_low"]] |};
  {| col_id := "pct_below_52w_high";
     accessor := Some (fundamental pct_below_52w_high);
     reads := [["fundamentals"; "pct_below_52w_high"]] |};
  {| col_id := "sources";
     accessor := Some (fun row => VStr (join ", " (sources row)));
     reads := [["sources"]] |};
  {| col_id := "investors";
     accessor := Some (fun row => of_count (investor_count row));
     reads := [["investor_count"]; ["dataroma_data"; "investors"]] |};
  {| col_id := "activity";
     accessor := Some (fun row => VStr (aggregate_activity row));
     reads := [["aggregate_activity"]] |};
  {| col_id := "market_cap";
     accessor := Some (fundamental market_cap);
     reads := [["fundamentals"; "market_cap"]] |};
  {| col_id := "peg_ratio";
     accessor := Some (fundamental peg_ratio);
     reads := [["fundamentals"; "peg_ratio"]] |};
  {| col_id := "forward_pe";
     accessor := Some (fundamental forward_pe);
     reads := [["fundamentals"; "forward_pe"]] |};
  {| col_id := "total_cash";
     accessor := Some (fundamental total_cash);
     reads := [["fundamentals"; "total_cash"]] |};
  {| col_id := "total_debt";
     accessor := Some (fundamental total_debt);
     reads := [["fundamentals"; "total_debt"]] |};
  {| col_id := "net_debt";
     accessor := Some (fundamental net_debt);
     reads := [["fundamentals"; "net_debt"]] |};
  {| col_id := "insider_pct";
     accessor := Some (fundamental insider_pct);
     reads := [["fundamentals"; "insider_pct"]] |};
  {| col_id := "institutional_pct";
     accessor := Some (fundamental institutional_pct);
     reads := [["fundamentals"; "institutional_pct"]] |};
  {| col_id := "sector";
     accessor := Some (fun row => or_NA (sector (fundamentals row)));
     reads := [["fundamentals"; "sector"]] |};
  {| col_id := "industry";
     accessor := Some (fun row => or_NA (industry (fundamentals row)));
     reads := [["fundamentals"; "industry"]] |};
  {| col_id := "current_price";
     accessor := Some (fundamental current_price);
     reads := [["fundamentals"; "current_price"]] |};
  {| col_id := "is_etf";
     accessor := Some (fun row => VStr (if is_etf row then "Yes" else "No"));
     reads := [["is_etf"]] |};
  {| col_id := "thesis";
     accessor := Some (fun row => VStr (or_else (thesis row) ""));
     reads := [["thesis"]] |};
  {| col_id := "link";
     accessor := Some (fun row => VStr (stockanalysis_link row));
     reads := [["stockanalysis_link"]] |}
].

(** Every property path the column definitions read. *)
Definition column_reads : list path := concat (map reads getStockColumns).

(** The accessor of the column with a given id, as the table looks it up
    for sorting and filtering. *)
Definition accessor_of (cid : string) : option (Stock -> value) :=
  match List.find (fun c => String.eqb (col_id c) cid) getStockColumns with
  | Some c => accessor c
  | None => None
  end.

Section Filters.
Variable Number_of_string : string -> number.

(** The [filterFn] of the [pct_above_52w_low] column, on the cell value. *)
Definition pct_above_52w_low_filterFn (cell : value) (filterValue : string) : bool :=
  if negb (truthy filterValue) then true
  else
    match coerceNumber Number_of_string cell with
    | None => false
    | Some x =>
        if String.eqb filterValue "lt5" then lt x (Fin 5)
        else if String.eqb filterValue "5-15" then ge x (Fin 5) && lt x (Fin 15)
        else if String.eqb filterValue "15-30" then ge x (Fin 15) && lt x (Fin 30)
        else if String.eqb filterValue "gt30" then ge x (Fin 30)
        else true
    end.

(** The [filterFn] of the [investors] column, on the cell value. *)
Definition investors_filterFn (cell : value) (filterValue : string) : bool :=
  if negb (truthy filterValue) then true
  else
    match coerceNumber Number_of_string cell with
    | None => false
    | Some x =>
        if String.eqb filterValue "1" then strict_eq x (Fin 1)
        else if String.eqb filterValue "2-3" then ge x (Fin 2) && le x (Fin 3)
        else if String.eqb filterValue "4-5" then ge x (Fin 4) && le x (Fin 5)
        else if String.eqb filterValue "6+" then ge x (Fin 6)
        else true
    end.
End Filters.

(** The [filterFn] of the [sources] column. *)
Definition sources_filterFn (original : Stock) (filterValue : list string) : bool :=
  match filterValue with
  | [] => true
  | _ => existsb (fun source => includes (sources original) source) filterValue
  end.

(** The [filterFn] of the [activity] and [sector] columns, on the cell
    value: [String(value || '')] is looked up in the selection. *)
Definition selection_filterFn (cell : string) (filterValue : list string) : bool :=
  match filterValue with
  | [] => true
  | _ => includes filterValue cell
  end.

(** The [filterFn] of the [is_etf] column. *)
Definition is_etf_filterFn (original : Stock) (filterValue : string) : bool :=
  if negb (truthy filterValue) then true
  else if String.eqb filterValue "yes" then is_etf original
  else if String.eqb filterValue "no" then negb (is_etf original)
  else true.

(** The presets the filter bar offers for the three numeric filters. *)
Definition pe_presets : list string := ["lt10"; "10-15"; "15-25"; "25-40"; "gt40"; "na"].
Definition above_low_presets : list string := ["lt5"; "5-15"; "15-30"; "gt30"].
Definition investor_count_presets : list string := ["1"; "2-3"; "4-5"; "6+"].

End StockColumns.

(* ===================================================================== *)
(** * components/ThesisGenerator.tsx and components/ExpandedRow.tsx *)
(* ===================================================================== *)

Module ThesisGenerator.
Import Js Control StockTypes Artifact StockColumns.

(** What the component and its surroundings hold between two clicks. *)
Record World := {
  isLoading : bool;
  error : option string;
  sessionStorage : gmap string string;
  requests : list ThesisApi.ThesisRequest;  (* bodies POSTed to /api/thesis *)
  updates : list (string * string);         (* calls of onThesisUpdate *)
  dialogs : list string;                    (* window.prompt messages shown *)
}.

Definition setIsLoading (b : bool) : eff World unit unit :=
  modify (fun w => {| isLoading := b; error := error w;
                      sessionStorage := sessionStorage w; requests := requests w;
                      updates := updates w; dialogs := dialogs w |}).

Definition setError (e : option string) : eff World unit unit :=
  modify (fun w => {| isLoading := isLoading w; error := e;
                      sessionStorage := sessionStorage w; requests := requests w;
                      updates := updates w; dialogs := dialogs w |}).


Definition onThesisUpdate (ticker thesis : string) : eff World unit unit :=
  modify (fun w => {| isLoading := isLoading w; error := error w;
                      sessionStorage := sessionStorage w; requests := requests w;
                      updates := updates w ++ [(ticker, thesis)];
                      dialogs := dialogs w |}).

(** What [await response.json()] gives; [None] is the JSON value null. *)
Inductive json_outcome : Type :=
| JsonRejected (e : exn)
| JsonValue (payload : option ThesisApi.ThesisResponse).

(** What [await fetch('/api/thesis', ...)] gives. *)
Inductive fetch_outcome : Type :=
| Rejected (e : exn)
| Resolved (ok : bool) (json : json_outcome).

(** The services of the browser that [handleGenerate] calls before its
    [try]: for each one the exception it throws, if it throws. Access to
    [sessionStorage] throws a SecurityError where storage is blocked, and
    [setItem] a QuotaExceededError where nothing can be stored. *)
Record Browser := {
  getItem_throws : option exn;
  prompt_throws : option exn;
  setItem_throws : option exn;
}.

(** A browser whose session storage and prompt are at hand. *)
Definition dependable : Browser :=
  {| getItem_throws := None; prompt_throws := None; setItem_throws := None |}.

Section HandleGenerate.
(** The browser, the user's answer to [window.prompt] ([None]:
    cancelled) and the endpoint behind [fetch]. *)
Variable browser : Browser.
Variable prompt_answer : option string.
Variable api : ThesisApi.ThesisRequest -> fetch_outcome.

(** [sessionStorage.getItem(k)]; [None] is [null]. *)
Definition sessionStorage_getItem (k : string) : eff World unit (option string) :=
  match getItem_throws browser with
  | Some e => throw e
  | None => w ← get; mret (sessionStorage w !! k)
  end.

(** [sessionStorage.setItem(k, v)] *)
Definition sessionStorage_setItem (k v : string) : eff World unit unit :=
  match setItem_throws browser with
  | Some e => throw e
  | None =>
      modify (fun w => {| isLoading := isLoading w; error := error w;
                          sessionStorage := <[k := v]> (sessionStorage w);
                          requests := requests w;
                          updates := updates w; dialogs := dialogs w |})
  end.

(** [window.prompt(message)] *)
Definition window_prompt (message : string) : eff World unit (option string) :=
  match prompt_throws browser with
  | Some e => throw e
  | None =>
      modify (fun w => {| isLoading := isLoading w; error := error w;
                          sessionStorage := sessionStorage w; requests := requests w;
                          updates := updates w; dialogs := dialogs w ++ [message] |});;
      mret prompt_answer
  end.

Definition fetch (body : ThesisApi.ThesisRequest) : eff World unit (bool * json_outcome) :=
  modify (fun w => {| isLoading := isLoading w; error := error w;
                      sessionStorage := sessionStorage w;
                      requests := requests w ++ [body];
                      updates := updates w; dialogs := dialogs w |});;
  match api body with
  | Rejected e => throw e
  | Resolved ok json => mret (ok, json)
  end.

Definition response_json (json : json_outcome)
  : eff World unit (option ThesisApi.ThesisResponse) :=
  match json with
  | JsonRejected e => throw e
  | JsonValue payload => mret payload
  end.

(** The body of the POST for a stock. *)
Definition request_for (stock : Stock) (password : string) : ThesisApi.ThesisRequest :=
  {| ThesisApi.ticker := Some (ticker stock);
     ThesisApi.company_name := Some (company_name stock);
     ThesisApi.investor_names := Some (map name (investors (dataroma_data stock)));
     ThesisApi.password := Some password |}.

(** [payload?.success], as a truth value. *)
Definition payload_success (payload : option ThesisApi.ThesisResponse) : bool :=
  match payload with Some p => ThesisApi.success p | None => false end.

(** [const handleGenerate = async () => { ... }] *)
Definition handleGenerate (stock : Stock) : eff World unit unit :=
  w ← get;
  if isLoading w then return_ tt
  else
    setError None;;
    stored ← sessionStorage_getItem "thesis_password";
    password ←
      (if ThesisApi.falsy stored then
         answer ← window_prompt "Enter thesis password";
         let password := or_else answer "" in
         if negb (truthy password) then return_ tt
         else sessionStorage_setItem "thesis_password" password;; mret password
       else mret (default "" stored));
    try_finally
      (try_catch
         (setIsLoading true;;
          response ← fetch (request_for stock password);
          payload ← response_json (snd response);
          if (negb (fst response) || negb (payload_success payload))%bool then
            let message :=
              or_else (payload ≫= ThesisApi.error) "Failed to generate thesis" in
            setError (Some message);;
            return_ tt
          else
            onThesisUpdate (ticker stock) (or_else (payload ≫= ThesisApi.thesis) ""))
         (fun err =>
            setError (Some match err with
                           | ErrorObject message => message
                           | OtherThrown => "Failed to generate thesis"
                           end)))
      (setIsLoading false).

(** One click on the button: the promise of [handleGenerate] resolves
    ([inl]) or rejects ([inr]). *)
Definition click_in (stock : Stock) (w : World) : (unit + exn) * World :=
  call (handleGenerate stock) (fun u => u) w.
End HandleGenerate.

(** One click on the button in a browser whose session storage and prompt
    are at hand. *)
Definition click (prompt_answer : option string)
    (api : ThesisApi.ThesisRequest -> fetch_outcome) (stock : Stock) (w : World)
  : (unit + exn) * World :=
  click_in dependable prompt_answer api stock w.

(** What the component renders for a stock in a given state. *)
Definition render (stock : Stock) (w : World) : node :=
  let thesis := or_else (trim <$> thesis stock) "" in
  if truthy thesis then
    let displayText :=
      if (80 <? String.length thesis)%nat then String.substring 0 80 thesis +:+ "..."
      else thesis in
    Element "span" "truncate max-w-[220px] block text-sm text-gray-600"
      [("title", thesis)] [Text displayText]
  else
    Element "div" "flex flex-col items-start gap-1" []
      (Element "button"
         "px-3 py-1 text-xs bg-indigo-600 text-white rounded-md hover:bg-indigo-700 disabled:opacity-60"
         [("type", "button"); ("disabled", if isLoading w then "true" else "false")]
         [Text (if isLoading w then "Generating..." else "Generate")]
       :: match error w with
          | Some e =>
              if truthy e then [Element "span" "text-xs text-red-600" [] [Text e]] else []
          | None => []
          end).

(** The property paths of the stock that [ThesisGenerator] reads. *)
Definition reads : list path :=
  [["thesis"]; ["ticker"]; ["company_name"]; ["dataroma_data"; "investors"]].

(** The property paths of the stock that [ExpandedRow] reads. *)
Definition expanded_row_reads : list path :=
  [["dataroma_data"; "investors"]; ["substack_data"; "mentions"]; ["thesis"]].

(** The failures of one request, and the message each one leaves. *)
Definition failure_message (o : fetch_outcome) : option string :=
  match o with
  | Rejected (ErrorObject m) => Some m
  | Rejected OtherThrown => Some "Failed to generate thesis"
  | Resolved _ (JsonRejected (ErrorObject m)) => Some m
  | Resolved _ (JsonRejected OtherThrown) => Some "Failed to generate thesis"
  | Resolved ok (JsonValue payload) =>
      if (negb ok || negb (payload_success payload))%bool then
        Some (or_else (payload ≫= ThesisApi.error) "Failed to generate thesis")
      else None
  end.

(** The password a click works with, if it gets one. *)
Definition password_for (prompt_answer : option string) (w : World) : option string :=
  let stored := sessionStorage w !! "thesis_password" in
  if ThesisApi.falsy stored then
    let password := or_else prompt_answer "" in
    if truthy password then Some password else None
  else stored.

(** A thrown [Error] carries a message, as the errors of [fetch] and of
    [response.json()] do. *)
Definition carries_message (o : fetch_outcome) : bool :=
  match o with
  | Rejected (ErrorObject m) => truthy m
  | Resolved _ (JsonRejected (ErrorObject m)) => truthy m
  | _ => true
  end.

(** The button with an inline error next to it. *)
Definition button_with_error (message : string) : node :=
  Element "div" "flex flex-col items-start gap-1" []
    [Element "button"
       "px-3 py-1 text-xs bg-indigo-600 text-white rounded-md hover:bg-indigo-700 disabled:opacity-60"
       [("type", "button"); ("disabled", "false")] [Text "Generate"];
     Element "span" "text-xs text-red-600" [] [Text message]].

End ThesisGenerator.

(* ===================================================================== *)
(** * App.tsx *)
(* ===================================================================== *)

Module App.
Import Js StockTypes Artifact.

(** [useState<SortingState>([{ id: 'pe_ratio', desc: false }])] *)
Record ColumnSort := { sort_id : string; desc : bool }.

Definition sorting : list ColumnSort := [{| sort_id := "pe_ratio"; desc := false |}].

(** The state update of [handleThesisUpdate]; [None] is the [null] state. *)
Definition handleThesisUpdate (ticker thesis : string) (prev : option StockData)
  : option StockData :=
  match prev with
  | None => None
  | Some prev =>
      Some {| last_updated := last_updated prev;
              total_stocks := total_stocks prev;
              stats := stats prev;
              stocks := map (fun stock =>
                               if String.eqb (StockTypes.ticker stock) ticker
                               then with_thesis stock (Some thesis)
                               else stock)
                            (stocks prev) |}
  end.

(** The property paths of the stock that [globalFilterFn] and
    [sectorOptions] read. *)
Definition reads : list path :=
  [["ticker"]; ["company_name"]; ["dataroma_data"; "investors"]; ["fundamentals"; "sector"]].

(** A value of a column filter: the filter bar sets strings and arrays of
    strings; [null] and [undefined] clear a filter. *)
Inductive filter_value : Type :=
| FilterText (s : string)
| FilterList (l : list string)
| FilterNull
| FilterUndefined.

(** One entry of [ColumnFiltersState]. *)
Record ColumnFilter := { filter_id : string; value_of : filter_value }.

Definition isEmptyValue (v : filter_value) : bool :=
  match v with
  | FilterText s => String.eqb s ""
  | FilterList l => Nat.eqb (length l) 0
  | FilterNull | FilterUndefined => true
  end.

(** The state update of [setFilterValue]. *)
Definition setFilterValue (fid : string) (v : filter_value) (prev : list ColumnFilter)
  : list ColumnFilter :=
  let next := List.filter (fun f => negb (String.eqb (filter_id f) fid)) prev in
  if negb (isEmptyValue v) then next ++ [{| filter_id := fid; value_of := v |}]
  else next.

(** [getFilterValue]; [None] is [undefined]. *)
Definition getFilterValue (fid : string) (columnFilters : list ColumnFilter)
  : option filter_value :=
  value_of <$> List.find (fun f => String.eqb (filter_id f) fid) columnFilters.

(** [onClearFilters] *)
Definition onClearFilters (globalFilter : string) (columnFilters : list ColumnFilter)
  : string * list ColumnFilter := ("", []).

(** [sectorOptions]: the sectors of the table, through a [Set], sorted. *)
Definition sectorOptions (tableData : option StockData) : list string :=
  match tableData with
  | None => []
  | Some tableData =>
      let options : gset string :=
        foldl (fun (options : gset string) stock =>
                 let sector := sector (fundamentals stock) in
                 if (truthy sector && negb (String.eqb sector "N/A"))%bool
                 then options ∪ {[ sector ]} else options)
              ∅ (stocks tableData) in
      sort (elements options)
  end.

(** [columnVisibility]: the record filled by [forEach]. *)
Definition columnVisibility (columns : list ColumnConfig) : gmap string bool :=
  foldl (fun (visibility : gmap string bool) column =>
           <[id column := visible column]> visibility)
        ∅ columns.

(** [globalFilterFn] on the row's stock. *)
Definition globalFilterFn (original : Stock) (filterValue : string) : bool :=
  let query := trim (StockColumns.toLowerCase filterValue) in
  if negb (truthy query) then true
  else if Dashboard.str_includes (StockColumns.toLowerCase (StockTypes.ticker original)) query
  then true
  else if Dashboard.str_includes (StockColumns.toLowerCase (company_name original)) query
  then true
  else existsb (fun inv => Dashboard.str_includes (StockColumns.toLowerCase (name inv)) query)
         (investors (dataroma_data original)).

(** What the component returns. *)
Inductive view : Type :=
| LoadingView
| ErrorView (message : string)
| NoView
| DashboardView (tableData : StockData).

(** The effect that copies loaded data into the table state. *)
Definition setTableData_effect (data tableData : option StockData) : option StockData :=
  match data with
  | Some d => Some d
  | None => tableData
  end.

(** The branch of the component body that renders. *)
Definition render_view (loading : bool) (error : option string)
    (tableData : option StockData) : view :=
  if loading then LoadingView
  else
    match error with
    | Some e => if truthy e then ErrorView e
                else match tableData with
                     | None => NoView
                     | Some d => DashboardView d
                     end
    | None => match tableData with
              | None => NoView
              | Some d => DashboardView d
              end
    end.

End App.

(* ===================================================================== *)
(** * hooks/useColumnPreferences.ts *)
(* ===================================================================== *)

Module ColumnPreferences.
Import Js StockTypes.

Definition STORAGE_KEY : string := "investment-dashboard-columns".

(** The browser as the hook sees it: the decoded query parameters of
    [window.location] and [localStorage]. *)
Record Window := {
  searchParams : gmap string string;
  localStorage : gmap string string;
}.

Definition comma : ascii := ascii_of_nat 44.

Definition getColumnsFromUrl (w : Window) : option (list string) :=
  match searchParams w !! "cols" with
  | Some cols => if truthy cols then Some (map trim (split comma cols)) else None
  | None => None
  end.

Section Storage.
(** [JSON.parse] at the type of the stored value; [None] when it throws. *)
Variable JSON_parse : string -> option (list ColumnConfig).

Definition getColumnsFromStorage (w : Window) : option (list ColumnConfig) :=
  match localStorage w !! STORAGE_KEY with
  | Some stored => if truthy stored then JSON_parse stored else None
  | None => None
  end.

(** The initial state of [useColumnPreferences]. *)
Definition useColumnPreferences (w : Window) : list ColumnConfig :=
  match getColumnsFromUrl w with
  | Some urlCols =>
      map (fun col => with_visible col (includes urlCols (id col))) DEFAULT_COLUMNS
  | None =>
      match getColumnsFromStorage w with
      | Some storedCols => storedCols
      | None => DEFAULT_COLUMNS
      end
  end.
End Storage.

Definition toggleColumn (columnId : string) (prev : list ColumnConfig) : list ColumnConfig :=
  map (fun col => if String.eqb (id col) columnId
                  then with_visible col (negb (visible col)) else col) prev.

Definition setColumnVisibility (columnId : string) (v : bool) (prev : list ColumnConfig)
  : list ColumnConfig :=
  map (fun col => if String.eqb (id col) columnId then with_visible col v else col) prev.

Definition resetToDefaults (prev : list ColumnConfig) : list ColumnConfig := DEFAULT_COLUMNS.

(** [getShareableUrl]: the query parameters of the URL it returns. *)
Definition getShareableUrl (columns : list ColumnConfig) (w : Window) : gmap string string :=
  let visibleCols := map id (List.filter visible columns) in
  <["cols" := join "," visibleCols]> (searchParams w).

(** Opening a shared URL in a browser with its own [localStorage]. *)
Definition open_url (query : gmap string string) (storage : gmap string string) : Window :=
  {| searchParams := query; localStorage := storage |}.

(** The visibility a configuration assigns to a column id. *)
Definition visibility (columns : list ColumnConfig) (cid : string) : option bool :=
  visible <$> List.find (fun col => String.eqb (id col) cid) columns.

(** [visibleColumns] *)
Definition visibleColumns (columns : list ColumnConfig) : list ColumnConfig :=
  List.filter visible columns.

Section Persist.
(** [JSON.stringify] at the type of the columns. *)
Variable JSON_stringify : list ColumnConfig -> string.

(** The effect that saves the columns when they change. *)
Definition persist (columns : list ColumnConfig) (w : Window) : Window :=
  {| searchParams := searchParams w;
     localStorage := <[STORAGE_KEY := JSON_stringify columns]> (localStorage w) |}.
End Persist.

End ColumnPreferences.

(* ===================================================================== *)
(** * The merger's aggregation rules *)
(* ===================================================================== *)

Module Merger.
Import Js StockTypes.

(** The activity tags of a portfolio observation. *)
Inductive ActivityTag : Type := New | Add | Buy | Reduce | Sell | Hold.

Definition tag_name (t : ActivityTag) : string :=
  match t with
  | New => "New" | Add => "Add" | Buy => "Buy"
  | Reduce => "Reduce" | Sell => "Sell" | Hold => "Hold"
  end.

Definition is_new (t : ActivityTag) : bool :=
  match t with New => true | _ => false end.

Definition is_add_or_buy (t : ActivityTag) : bool :=
  match t with Add | Buy => true | _ => false end.

Definition is_reduce_or_sell (t : ActivityTag) : bool :=
  match t with Reduce | Sell => true | _ => false end.

(** Modelled from the spec: the aggregate activity of the merger
    (src/processors/data_merger.py, not among the sources). The tags are
    scanned in encounter order: New wins; otherwise the first Add or Buy;
    otherwise the first Reduce or Sell; otherwise, and for no observation
    at all, Hold. *)
Definition aggregate_activity (observations : list ActivityTag) : ActivityTag :=
  if existsb is_new observations then New
  else match List.find is_add_or_buy observations with
       | Some t => t
       | None =>
           match List.find is_reduce_or_sell observations with
           | Some t => t
           | None => Hold
           end
       end.

End Merger.

(* ===================================================================== *)
(** * The fundamentals fetcher *)
(* ===================================================================== *)

Module Fetcher.
Import Js StockTypes.

(** A figure of the data provider as the specification has it: a finite
    number, or unavailable. *)
Inductive figure : Type :=
| Available (q : Q)
| Unavailable.


(** Modelled from the spec: the value written to a numeric field (the
    fetcher, src/scrapers/yfinance_scraper.py, is not among the sources):
    the finite number itself, or the marker 'N/A' for an unavailable
    figure; never null, and never zero in place of a missing number. *)
Definition stored (x : figure) : num_or_str :=
  match x with
  | Available q => Num (Fin q)
  | Unavailable => Str "N/A"
  end.


End Fetcher.

(* ===================================================================== *)
(** * Statements of the specification, and sample data *)
(* ===================================================================== *)

Module Contract.
Import Js StockTypes.








(** The response contract of the thesis endpoint for one request: the body
    has one of the two shapes, and a request without the configured
    password gets the failure shape and reaches no Perplexity call. *)
Definition response_contract (env : gmap string string)
    (net : string -> string -> ThesisApi.fetch_outcome) (request : ThesisApi.Request) : Prop :=
  exists resp log,
    ThesisApi.run env net request = (inl resp, log)
    /\ ThesisApi.contract_shape resp
    /\ (~ ThesisApi.password_accepted env request ->
        (exists r, ThesisApi.response_body resp = Some r /\ ThesisApi.failure_shape r)
        /\ ThesisApi.fetches log = []).

(** The share-URL round trip: opening the URL of [getShareableUrl] gives
    every column id the visibility it had. *)
Definition share_url_round_trip (parse : string -> option (list ColumnConfig))
    (columns : list ColumnConfig) (w : ColumnPreferences.Window)
    (storage : gmap string string) : Prop :=
  forall cid,
    ColumnPreferences.visibility
      (ColumnPreferences.useColumnPreferences parse
         (ColumnPreferences.open_url (ColumnPreferences.getShareableUrl columns w) storage))
      cid
    = ColumnPreferences.visibility columns cid.

(** The property paths read by the table component that carries its own
    column definitions, and by the App that filters the stocks by hand. *)
Definition inline_table_reads : list Artifact.path := [
  ["ticker"]; ["company_name"];
  ["fundamentals"; "pe_ratio"]; ["fundamentals"; "pb_ratio"];
  ["fundamentals"; "week_52_high"]; ["fundamentals"; "week_52_low"];
  ["sources"]; ["investor_count"]; ["dataroma_data"; "investors"];
  ["aggregate_activity"];
  ["fundamentals"; "market_cap"]; ["fundamentals"; "peg_ratio"];
  ["fundamentals"; "forward_pe"]; ["fundamentals"; "insider_pct"];
  ["fundamentals"; "institutional_pct"]; ["fundamentals"; "sector"];
  ["fundamentals"; "industry"]; ["fundamentals"; "current_price"];
  ["substack_data"; "mentions"]; ["stockanalysis_link"]
].

Definition filtering_app_reads : list Artifact.path :=
  [["sources"]; ["aggregate_activity"]; ["ticker"]; ["company_name"];
   ["dataroma_data"; "investors"]].

(** Every property path the React presentation layer reads from a stock. *)
Definition ui_reads : list Artifact.path :=
  StockColumns.column_reads ++ ThesisGenerator.reads
  ++ ThesisGenerator.expanded_row_reads ++ App.reads
  ++ inline_table_reads ++ filtering_app_reads.

(** What the React layer reads beyond the listed names. *)
Definition extra_names : list Artifact.path := [["is_etf"]; ["thesis"]].

Definition dot : ascii := ascii_of_nat 46.

(** Every property path the DataTables page binds a column to. *)
Definition page_reads : list Artifact.path := map (split dot) Dashboard.columns_data.

(** What the DataTables page binds beyond the listed names: fundamentals
    at the top level of the row, and the activity and thesis of a source. *)
Definition page_names : list Artifact.path := [
  ["pe_ratio"]; ["pb_ratio"]; ["week_52_high"]; ["week_52_low"];
  ["peg_ratio"]; ["insider_pct"];
  ["dataroma_data"; "activity"]; ["substack_data"; "thesis"]
].

(** What a property path denotes on a stock. *)
Inductive projection : Type :=
| PString (s : string)
| PStrings (l : list string)
| PInvestors (l : list Investor)
| PMentions (l : list SubstackMention)
| PNumOrStr (v : num_or_str)
| PBoolean (b : bool)
| PNullable (s : option string)
| PNumber (n : Z)
| PUndefined.

Definition project_fundamentals (name : string) (f : Fundamentals) : projection :=
  if String.eqb name "pe_ratio" then PNumOrStr (pe_ratio f)
  else if String.eqb name "forward_pe" then PNumOrStr (forward_pe f)
  else if String.eqb name "pb_ratio" then PNumOrStr (pb_ratio f)
  else if String.eqb name "peg_ratio" then PNumOrStr (peg_ratio f)
  else if String.eqb name "week_52_high" then PNumOrStr (week_52_high f)
  else if String.eqb name "week_52_low" then PNumOrStr (week_52_low f)
  else if String.eqb name "pct_above_52w_low" then PNumOrStr (pct_above_52w_low f)
  else if String.eqb name "pct_below_52w_high" then PNumOrStr (pct_below_52w_high f)
  else if String.eqb name "current_price" then PNumOrStr (current_price f)
  else if String.eqb name "previous_close" then PNumOrStr (previous_close f)
  else if String.eqb name "total_cash" then PNumOrStr (total_cash f)
  else if String.eqb name "total_debt" then PNumOrStr (total_debt f)
  else if String.eqb name "long_term_debt" then PNumOrStr (long_term_debt f)
  else if String.eqb name "net_debt" then PNumOrStr (net_debt f)
  else if String.eqb name "market_cap" then PNumOrStr (market_cap f)
  else if String.eqb name "insider_pct" then PNumOrStr (insider_pct f)
  else if String.eqb name "institutional_pct" then PNumOrStr (institutional_pct f)
  else if String.eqb name "sector" then PString (sector f)
  else if String.eqb name "industry" then PString (industry f)
  else if String.eqb name "country" then PString (country f)
  else if String.eqb name "currency" then PString (currency f)
  else if String.eqb name "exchange" then PString (exchange f)
  else if String.eqb name "is_international" then PBoolean (is_international f)
  else PUndefined.

Definition project (p : Artifact.path) (s : Stock) : projection :=
  match p with
  | [name] =>
      if String.eqb name "ticker" then PString (ticker s)
      else if String.eqb name "company_name" then PString (company_name s)
      else if String.eqb name "sources" then PStrings (sources s)
      else if String.eqb name "stockanalysis_link" then PString (stockanalysis_link s)
      else if String.eqb name "is_etf" then PBoolean (is_etf s)
      else if String.eqb name "thesis" then PNullable (thesis s)
      else if String.eqb name "aggregate_activity" then PString (aggregate_activity s)
      else if String.eqb name "investor_count" then PNumber (investor_count s)
      else if String.eqb name "mention_count" then PNumber (mention_count s)
      else PUndefined
  | [outer; name] =>
      if String.eqb outer "fundamentals" then project_fundamentals name (fundamentals s)
      else if (String.eqb outer "dataroma_data" && String.eqb name "investors")%bool
      then PInvestors (investors (dataroma_data s))
      else if (String.eqb outer "substack_data" && String.eqb name "mentions")%bool
      then PMentions (mentions (substack_data s))
      else PUndefined
  | _ => PUndefined
  end.

(** Two stocks that agree on every field the specification lists. *)
Definition agree_on_listed (a b : Stock) : Prop :=
  ticker a = ticker b
  /\ company_name a = company_name b
  /\ sources a = sources b
  /\ investors (dataroma_data a) = investors (dataroma_data b)
  /\ mentions (substack_data a) = mentions (substack_data b)
  /\ fundamentals a = fundamentals b
  /\ aggregate_activity a = aggregate_activity b
  /\ investor_count a = investor_count b
  /\ mention_count a = mention_count b
  /\ stockanalysis_link a = stockanalysis_link b.

End Contract.

Module Samples.
Import Js StockTypes.

Definition fundamentals_of (pe : num_or_str) (sec : string) : Fundamentals :=
  {| pe_ratio := pe; forward_pe := Str "N/A"; pb_ratio := Str "N/A";
     peg_ratio := Str "N/A"; week_52_high := Str "N/A"; week_52_low := Str "N/A";
     pct_above_52w_low := Str "N/A"; pct_below_52w_high := Str "N/A";
     current_price := Str "N/A"; previous_close := Str "N/A";
     total_cash := Str "N/A"; total_debt := Str "N/A"; long_term_debt := Str "N/A";
     net_debt := Str "N/A"; market_cap := Str "N/A"; insider_pct := Str "N/A";
     institutional_pct := Str "N/A"; sector := sec; industry := "N/A";
     country := "N/A"; currency := "N/A"; exchange := "N/A";
     is_international := false |}.

(** Every field unavailable. *)
Definition unavailable : Fundamentals := fundamentals_of (Str "N/A") "N/A".

(** A technology company with a PE ratio of 28.5. *)
Definition technology : Fundamentals := fundamentals_of (Num (Fin (57 # 2))) "Technology".


Definition stock_of (t : string) (f : Fundamentals) (etf : bool) (activity : string) : Stock :=
  {| ticker := t; company_name := t; sources := ["Substack"];
     dataroma_data := {| investors := [] |};
     substack_data := {| mentions := [] |};
     fundamentals := f;
     stockanalysis_link := "https://stockanalysis.com/stocks/" +:+ t;
     is_etf := etf; thesis := None; aggregate_activity := activity;
     investor_count := 0; mention_count := 0 |}.

Definition aapl : Stock := stock_of "AAPL" technology false "Hold".
Definition spy : Stock := stock_of "SPY" unavailable true "Hold".

Definition env : gmap string string :=
  <["THESIS_PASSWORD" := "secret"]> (<["PERPLEXITY_API_KEY" := "key"]> ∅).

Definition offline (authorization prompt : string) : ThesisApi.fetch_outcome :=
  ThesisApi.Rejected (Control.ErrorObject "Failed to fetch").

(** A CORS preflight, and a POST with a wrong password. *)
Definition wrong_password : ThesisApi.request_body :=
  ThesisApi.BodyObject
    {| ThesisApi.ticker := Some "AAPL"; ThesisApi.company_name := None;
       ThesisApi.investor_names := None; ThesisApi.password := Some "guess" |}.

Definition preflight_request : ThesisApi.Request :=
  {| ThesisApi.method := "OPTIONS"; ThesisApi.body := wrong_password |}.

Definition post_request : ThesisApi.Request :=
  {| ThesisApi.method := "POST"; ThesisApi.body := wrong_password |}.

(** Every column hidden, and only the ticker column shown. *)
Definition all_hidden : list ColumnConfig :=
  map (fun col => with_visible col false) DEFAULT_COLUMNS.

Definition only_ticker : list ColumnConfig :=
  map (fun col => with_visible col (String.eqb (id col) "ticker")) DEFAULT_COLUMNS.

Definition no_parse (stored : string) : option (list ColumnConfig) := None.

Definition blank : ColumnPreferences.Window :=
  {| ColumnPreferences.searchParams := ∅; ColumnPreferences.localStorage := ∅ |}.

(** A component at rest with the password already in the session, and an
    endpoint that answers 401. *)
Definition at_rest : ThesisGenerator.World :=
  {| ThesisGenerator.isLoading := false; ThesisGenerator.error := None;
     ThesisGenerator.sessionStorage := <["thesis_password" := "guess"]> ∅;
     ThesisGenerator.requests := []; ThesisGenerator.updates := [];
     ThesisGenerator.dialogs := [] |}.

Definition unauthorized (body : ThesisApi.ThesisRequest) : ThesisGenerator.fetch_outcome :=
  ThesisGenerator.Resolved false
    (ThesisGenerator.JsonValue
       (Some {| ThesisApi.success := false; ThesisApi.thesis := None;
                ThesisApi.error := Some "Invalid password";
                ThesisApi.response_ticker := None |})).

Definition right_password : ThesisApi.request_body :=
  ThesisApi.BodyObject
    {| ThesisApi.ticker := Some "AAPL"; ThesisApi.company_name := Some "Apple Inc.";
       ThesisApi.investor_names := Some ["Warren Buffett"; "Bill Ackman"];
       ThesisApi.password := Some "secret" |}.

Definition authorized_request : ThesisApi.Request :=
  {| ThesisApi.method := "POST"; ThesisApi.body := right_password |}.

(** A Perplexity API that answers every prompt with the same sentence. *)
Definition answering (authorization prompt : string) : ThesisApi.fetch_outcome :=
  ThesisApi.Resolved
    {| ThesisApi.ok := true; ThesisApi.text := Some "{}";
       ThesisApi.content := Some (Some " Durable cash flows. ") |}.

(** An endpoint that answers with a thesis. *)
Definition generous (body : ThesisApi.ThesisRequest) : ThesisGenerator.fetch_outcome :=
  ThesisGenerator.Resolved true
    (ThesisGenerator.JsonValue
       (Some {| ThesisApi.success := true; ThesisApi.thesis := Some "Durable cash flows.";
                ThesisApi.error := None; ThesisApi.response_ticker := Some "AAPL" |})).

(** A fetch that throws an [Error] without message. *)
Definition mute (body : ThesisApi.ThesisRequest) : ThesisGenerator.fetch_outcome :=
  ThesisGenerator.Rejected (Control.ErrorObject "").

End Samples.

(* ===================================================================== *)
(** * hooks/useStockData.ts *)
(* ===================================================================== *)

Module UseStockData.
Import Js Control StockTypes.

(** The three states of the hook, and the console. *)
Record State := {
  data : option StockData;
  loading : bool;
  error : option string;
  console : list string;
}.

(** The initial values of the three [useState]. *)
Definition initial : State :=
  {| data := None; loading := true; error := None; console := [] |}.

Definition setData (d : option StockData) : eff State unit unit :=
  modify (fun s => {| data := d; loading := loading s; error := error s;
                      console := console s |}).

Definition setLoading (b : bool) : eff State unit unit :=
  modify (fun s => {| data := data s; loading := b; error := error s;
                      console := console s |}).

Definition setError (e : option string) : eff State unit unit :=
  modify (fun s => {| data := data s; loading := loading s; error := e;
                      console := console s |}).

Definition console_error (label : string) : eff State unit unit :=
  modify (fun s => {| data := data s; loading := loading s; error := error s;
                      console := console s ++ [label] |}).

(** What [await response.json()] gives: a rejection, or the parsed body.
    The body is taken at its declared type [StockData] when it is truthy;
    [None] is a falsy body -- null, false, 0 or the empty string -- which
    the hook stores like any other and its consumer does not tell apart. *)
Inductive json_outcome : Type :=
| JsonRejected (e : exn)
| JsonValue (body : option StockData).

(** What [await fetch('./data/stocks.json')] gives. *)
Inductive fetch_outcome : Type :=
| Rejected (e : exn)
| Resolved (ok : bool) (status : Z) (json : json_outcome).

Section FetchData.
Variable net : string -> fetch_outcome.

(** [async function fetchData()] *)
Definition fetchData : eff State unit unit :=
  try_catch
    (match net "./data/stocks.json" with
     | Rejected e => throw e
     | Resolved ok status json =>
         if negb ok then throw (ErrorObject ("HTTP error! status: " +:+ pretty status))
         else
           match json with
           | JsonRejected e => throw e
           | JsonValue jsonData =>
               setData jsonData;;
               setLoading false
           end
     end)
    (fun err =>
       console_error "Failed to fetch stock data:";;
       setError (Some match err with
                      | ErrorObject message => message
                      | OtherThrown => "Failed to load data"
                      end);;
       setLoading false).

(** The hook after its effect has run once. *)
Definition loaded : (unit + exn) * State := call fetchData (fun u => u) initial.
End FetchData.

End UseStockData.

(* ===================================================================== *)
(** * components/FilterBar.tsx: the multi-select *)
(* ===================================================================== *)

Module FilterBar.
Import Js.

(** [toggleValue] of [MultiSelect]: the array handed to [onChange]. *)
Definition toggleValue (values : list string) (value : string) : list string :=
  if includes values value then List.filter (fun item => negb (String.eqb item value)) values
  else values ++ [value].

End FilterBar.

(* ===================================================================== *)
(** * components/ColumnPicker.tsx *)
(* ===================================================================== *)

Module ColumnPicker.
Import Js StockTypes.

Definition group_eqb (a b : column_group) : bool :=
  match a, b with
  | basic, basic | valuation, valuation | quality, quality
  | income, income | other, other => true
  | _, _ => false
  end.

(** [groupedColumns], as [Object.entries] enumerates it. *)
Definition groupedColumns (columns : list ColumnConfig)
  : list (column_group * list ColumnConfig) := [
  (basic, List.filter (fun c => group_eqb (group c) basic) columns);
  (valuation, List.filter (fun c => group_eqb (group c) valuation) columns);
  (quality, List.filter (fun c => group_eqb (group c) quality) columns);
  (income, List.filter (fun c => group_eqb (group c) income) columns);
  (other, List.filter (fun c => group_eqb (group c) other) columns)
].

(** The groups that are rendered: those with a column. *)
Definition rendered_groups (columns : list ColumnConfig)
  : list (column_group * list ColumnConfig) :=
  List.filter (fun entry => (0 <? length (snd entry))%nat) (groupedColumns columns).

(** The checkboxes of the picker, group after group. *)
Definition checkboxes (columns : list ColumnConfig) : list ColumnConfig :=
  concat (map snd (rendered_groups columns)).

End ColumnPicker.

(* ===================================================================== *)
(** * The App that filters the stocks itself *)
(* ===================================================================== *)

Module FilteringApp.
Import Js StockTypes.

(** ['all' | 'dataroma' | 'substack' | 'both'] *)
Inductive source_filter : Type := all | dataroma | substack | both.

Definition is_dataroma (f : source_filter) : bool :=
  match f with dataroma => true | _ => false end.
Definition is_substack (f : source_filter) : bool :=
  match f with substack => true | _ => false end.
Definition is_both (f : source_filter) : bool :=
  match f with both => true | _ => false end.

(** The predicate of [data.stocks.filter(stock => ...)]. *)
Definition keeps (sourceFilter : source_filter) (activityFilter searchQuery : string)
    (stock : Stock) : bool :=
  if (is_dataroma sourceFilter && negb (includes (sources stock) "Dataroma"))%bool then false
  else if (is_substack sourceFilter && negb (includes (sources stock) "Substack"))%bool
  then false
  else if (is_both sourceFilter
           && negb (includes (sources stock) "Dataroma"
                    && includes (sources stock) "Substack"))%bool
  then false
  else if (negb (String.eqb activityFilter "all")
           && negb (String.eqb (StockColumns.toLowerCase (aggregate_activity stock))
                      (StockColumns.toLowerCase activityFilter)))%bool
  then false
  else if truthy searchQuery then
    let query := StockColumns.toLowerCase searchQuery in
    let matchesTicker :=
      Dashboard.str_includes (StockColumns.toLowerCase (ticker stock)) query in
    let matchesCompany :=
      Dashboard.str_includes (StockColumns.toLowerCase (company_name stock)) query in
    let matchesInvestor :=
      existsb (fun inv => Dashboard.str_includes (StockColumns.toLowerCase (name inv)) query)
        (investors (dataroma_data stock)) in
    if (negb matchesTicker && negb matchesCompany && negb matchesInvestor)%bool then false
    else true
  else true.

(** [filteredStocks] *)
Definition filteredStocks (sourceFilter : source_filter) (activityFilter searchQuery : string)
    (data : StockData) : list Stock :=
  List.filter (keeps sourceFilter activityFilter searchQuery) (stocks data).

End FilteringApp.

(* ===================================================================== *)
(** * The endpoint as the component reaches it *)
(* ===================================================================== *)

Module Deployment.
Import Js Control.

(** [fetch('/api/thesis', { method: 'POST', body: JSON.stringify(b) })]
    answered by the edge function: [response.ok] is a status from 200 to
    299, [response.json()] parses the body the handler serialised and
    rejects on an empty one. *)
Definition served (env : gmap string string)
    (perplexity : string -> string -> ThesisApi.fetch_outcome)
    (b : ThesisApi.ThesisRequest) : ThesisGenerator.fetch_outcome :=
  match fst (ThesisApi.run env perplexity
               {| ThesisApi.method := "POST"; ThesisApi.body := ThesisApi.BodyObject b |}) with
  | inl resp =>
      ThesisGenerator.Resolved
        ((200 <=? ThesisApi.status resp)%Z && (ThesisApi.status resp <=? 299)%Z)
        match ThesisApi.response_body resp with
        | Some r => ThesisGenerator.JsonValue (Some r)
        | None => ThesisGenerator.JsonRejected (ErrorObject "Unexpected end of JSON input")
        end
  | inr e => ThesisGenerator.Rejected e
  end.

End Deployment.

(* ===================================================================== *)
(** * More sample data *)
(* ===================================================================== *)

Module Fixtures.
Import Js StockTypes.

(** A component at rest with the configured password in the session. *)
Definition signed_in : ThesisGenerator.World :=
  {| ThesisGenerator.isLoading := false; ThesisGenerator.error := None;
     ThesisGenerator.sessionStorage := <["thesis_password" := "secret"]> ∅;
     ThesisGenerator.requests := []; ThesisGenerator.updates := [];
     ThesisGenerator.dialogs := [] |}.


(** The answer of [Samples.answering]. *)
Definition answer : ThesisApi.PerplexityResponse :=
  {| ThesisApi.ok := true; ThesisApi.text := Some "{}";
     ThesisApi.content := Some (Some " Durable cash flows. ") |}.

Definition table : StockData :=
  {| last_updated := "2026-01-03T10:00:00Z"; total_stocks := 2;
     stats := {| dataroma_stocks := 0; substack_stocks := 2; both_sources := 0;
                 dataroma_only := 0; substack_only := 2 |};
     stocks := [Samples.aapl; Samples.spy] |}.

(** A server that answers 404 to the request for the data file. *)
Definition not_found (url : string) : UseStockData.fetch_outcome :=
  UseStockData.Resolved false 404
    (UseStockData.JsonRejected (Control.ErrorObject "Unexpected token < in JSON")).

End Fixtures.

(* ===================================================================== *)
(** * Properties *)
(* ===================================================================== *)

(** ** Source counts of the dashboard header *)

Section SourceCounts.
Import Js Dashboard.

Lemma filter_both_le_left {A} (p q : A -> bool) (l : list A) :
  (length (List.filter (fun x => p x && q x) l) <= length (List.filter p l))%nat.
Proof.
  induction l as [|x l IH]; simpl; [lia|].
  destruct (p x); simpl; [destruct (q x); simpl; lia | lia].
Qed.

Lemma filter_both_le_right {A} (p q : A -> bool) (l : list A) :
  (length (List.filter (fun x => p x && q x) l) <= length (List.filter q l))%nat.
Proof.
  induction l as [|x l IH]; simpl; [lia|].
  destruct (p x), (q x); simpl; lia.
Qed.

(** C1. Whatever the stocks array, the three counts that [updateMetadata]
    writes into the page header are the numbers of stocks whose sources
    include 'Dataroma', 'Substack' and both, and the third is at most the
    minimum of the first two. *)
Theorem updateMetadata_both_le_min
    (fmt : string -> string) (data : Data) (page : gmap string content) :
  let page' := updateMetadata fmt data page in
  page' !! "#dataroma-count" = Some (text_number (Z.of_nat (dataromaCount data)))
  /\ page' !! "#substack-count" = Some (text_number (Z.of_nat (substackCount data)))
  /\ page' !! "#both-sources" = Some (text_number (Z.of_nat (bothCount data)))
  /\ (bothCount data <= Nat.min (dataromaCount data) (substackCount data))%nat.
Proof.
  cbv zeta. unfold updateMetadata. repeat split.
  - rewrite !lookup_insert_ne by discriminate. apply lookup_insert_eq.
  - rewrite lookup_insert_ne by discriminate. apply lookup_insert_eq.
  - apply lookup_insert_eq.
  - unfold bothCount, dataromaCount, substackCount.
    apply Nat.min_glb; [apply filter_both_le_left | apply filter_both_le_right].
Qed.

End SourceCounts.

(** ** Aggregate activity *)

Section AggregateActivity.
Import Merger.

Lemma existsb_is_new (obs : list ActivityTag) :
  existsb is_new obs = true <-> In New obs.
Proof.
  rewrite existsb_exists. split.
  - intros [t [Hin Ht]]. destruct t; try discriminate. exact Hin.
  - intros Hin. exists New. split; [exact Hin | reflexivity].
Qed.

Lemma no_new (obs : list ActivityTag) :
  ~ In New obs -> existsb is_new obs = false.
Proof.
  intros Hn. destruct (existsb is_new obs) eqn:E; [|reflexivity].
  apply existsb_is_new in E. contradiction.
Qed.

Lemma aggregate_new (obs : list ActivityTag) :
  In New obs -> aggregate_activity obs = New.
Proof.
  intros Hin. unfold aggregate_activity.
  apply existsb_is_new in Hin. rewrite Hin. reflexivity.
Qed.

Lemma aggregate_add_or_buy (obs : list ActivityTag) :
  ~ In New obs -> In Add obs \/ In Buy obs ->
  (aggregate_activity obs = Add \/ aggregate_activity obs = Buy)
  /\ In (aggregate_activity obs) obs.
Proof.
  intros Hnew Hin. unfold aggregate_activity. rewrite (no_new obs Hnew).
  destruct (List.find is_add_or_buy obs) as [t|] eqn:E.
  - apply find_some in E. destruct E as [Ht Hp].
    split; [destruct t; try discriminate; auto | exact Ht].
  - exfalso. destruct Hin as [Hin|Hin];
      pose proof (find_none _ _ E _ Hin) as Hn; discriminate.
Qed.

Lemma aggregate_reduce_or_sell (obs : list ActivityTag) :
  ~ In New obs -> ~ In Add obs -> ~ In Buy obs -> In Reduce obs \/ In Sell obs ->
  (aggregate_activity obs = Reduce \/ aggregate_activity obs = Sell)
  /\ In (aggregate_activity obs) obs.
Proof.
  intros Hnew Hadd Hbuy Hin. unfold aggregate_activity. rewrite (no_new obs Hnew).
  destruct (List.find is_add_or_buy obs) as [t|] eqn:E.
  - apply find_some in E. destruct E as [Ht Hp].
    destruct t; try discriminate; contradiction.
  - destruct (List.find is_reduce_or_sell obs) as [t|] eqn:E2.
    + apply find_some in E2. destruct E2 as [Ht Hp].
      split; [destruct t; try discriminate; auto | exact Ht].
    + exfalso. destruct Hin as [Hin|Hin];
        pose proof (find_none _ _ E2 _ Hin) as Hn; discriminate.
Qed.

Lemma aggregate_all_hold (obs : list ActivityTag) :
  (forall t, In t obs -> t = Hold) -> aggregate_activity obs = Hold.
Proof.
  intros Hall. unfold aggregate_activity.
  destruct (existsb is_new obs) eqn:E1.
  - apply existsb_is_new in E1. apply Hall in E1. discriminate.
  - destruct (List.find is_add_or_buy obs) as [t|] eqn:E2.
    + apply find_some in E2. destruct E2 as [Hin Ht].
      apply Hall in Hin. subst. discriminate.
    + destruct (List.find is_reduce_or_sell obs) as [t|] eqn:E3; [|reflexivity].
      apply find_some in E3. destruct E3 as [Hin Ht].
      apply Hall in Hin. subst. discriminate.
Qed.

(** C2. The aggregate activity follows the precedence
    New > Add/Buy > Reduce/Sell > Hold: with a New observation the aggregate
    is New; otherwise, with an Add or a Buy, it is one of these and a tag
    that occurs; otherwise Reduce or Sell dominate Hold in the same way;
    observations that are all Hold, and the empty list, give Hold.
    [Hold, New, Sell] gives New and [Reduce, Hold] gives Reduce. *)
Theorem aggregate_activity_precedence :
  (forall obs, In New obs -> aggregate_activity obs = New)
  /\ (forall obs, ~ In New obs -> In Add obs \/ In Buy obs ->
        (aggregate_activity obs = Add \/ aggregate_activity obs = Buy)
        /\ In (aggregate_activity obs) obs)
  /\ (forall obs, ~ In New obs -> ~ In Add obs -> ~ In Buy obs ->
        In Reduce obs \/ In Sell obs ->
        (aggregate_activity obs = Reduce \/ aggregate_activity obs = Sell)
        /\ In (aggregate_activity obs) obs)
  /\ (forall obs, (forall t, In t obs -> t = Hold) -> aggregate_activity obs = Hold)
  /\ aggregate_activity [] = Hold
  /\ aggregate_activity [Hold; New; Sell] = New
  /\ aggregate_activity [Reduce; Hold] = Reduce.
Proof.
  split; [exact aggregate_new|].
  split; [exact aggregate_add_or_buy|].
  split; [exact aggregate_reduce_or_sell|].
  split; [exact aggregate_all_hold|].
  repeat split; reflexivity.
Qed.

End AggregateActivity.

(** ** The Activity column *)

Section ActivityColumn.
Import Js StockTypes StockColumns.

(** C6. A stock whose aggregate activity is 'Hold' -- the aggregate of no
    portfolio observation at all -- gets the neutral dash in the Activity
    column and no badge; the DataTables page renders the same dash for a
    'Hold' and for a missing activity. *)
Theorem hold_renders_neutral_dash (stock : Stock) :
  aggregate_activity stock = "Hold" ->
  activity_cell stock = Element "span" "text-gray-400" [] [Text "-"]
  /\ aggregate_activity stock = Merger.tag_name (Merger.aggregate_activity [])
  /\ Dashboard.render_activity (Some (aggregate_activity stock)) = "-"
  /\ Dashboard.render_activity None = "-".
Proof.
  intros Hhold. unfold activity_cell. rewrite Hhold. repeat split; reflexivity.
Qed.

Lemma hold_renders_neutral_dash_witness :
  activity_cell Samples.spy = Element "span" "text-gray-400" [] [Text "-"]
  /\ aggregate_activity Samples.spy = Merger.tag_name (Merger.aggregate_activity [])
  /\ Dashboard.render_activity (Some (aggregate_activity Samples.spy)) = "-"
  /\ Dashboard.render_activity None = "-".
Proof. apply (hold_renders_neutral_dash Samples.spy). reflexivity. Defined.

(** Any other activity is shown as a badge carrying its name. *)
Lemma other_activity_renders_badge (stock : Stock) :
  aggregate_activity stock <> "Hold" ->
  activity_cell stock
  = Element "span"
      ("px-2 py-1 text-xs rounded-full " +:+ getActivityBadgeClass (aggregate_activity stock))
      [] [Text (aggregate_activity stock)].
Proof.
  intros Hne. unfold activity_cell.
  destruct (String.eqb_spec (aggregate_activity stock) "Hold") as [E|E];
    [contradiction | reflexivity].
Qed.

End ActivityColumn.

(** ** Thesis updates *)

Section ThesisUpdate.
Import StockTypes App.

Lemma with_thesis_frame (stock : Stock) (t : option string) :
  ticker (with_thesis stock t) = ticker stock
  /\ company_name (with_thesis stock t) = company_name stock
  /\ sources (with_thesis stock t) = sources stock
  /\ dataroma_data (with_thesis stock t) = dataroma_data stock
  /\ substack_data (with_thesis stock t) = substack_data stock
  /\ fundamentals (with_thesis stock t) = fundamentals stock
  /\ stockanalysis_link (with_thesis stock t) = stockanalysis_link stock
  /\ is_etf (with_thesis stock t) = is_etf stock
  /\ aggregate_activity (with_thesis stock t) = aggregate_activity stock
  /\ investor_count (with_thesis stock t) = investor_count stock
  /\ mention_count (with_thesis stock t) = mention_count stock.
Proof. repeat split. Qed.

(** C9. [handleThesisUpdate t s] leaves the null state alone; on table data
    it keeps [last_updated], [total_stocks], [stats] and the number and
    order of the stocks; a stock with another ticker is unchanged, and a
    stock with ticker [t] changes in its [thesis] field only, which
    becomes [s]. *)
Theorem handleThesisUpdate_frame (t s : string) (prev : StockData) :
  handleThesisUpdate t s None = None
  /\ exists next,
      handleThesisUpdate t s (Some prev) = Some next
      /\ last_updated next = last_updated prev
      /\ total_stocks next = total_stocks prev
      /\ stats next = stats prev
      /\ length (stocks next) = length (stocks prev)
      /\ forall (i : nat) (stock : Stock),
          stocks prev !! i = Some stock ->
          exists stock',
            stocks next !! i = Some stock'
            /\ (ticker stock <> t -> stock' = stock)
            /\ (ticker stock = t -> stock' = with_thesis stock (Some s))
            /\ ticker stock' = ticker stock
            /\ company_name stock' = company_name stock
            /\ sources stock' = sources stock
            /\ dataroma_data stock' = dataroma_data stock
            /\ substack_data stock' = substack_data stock
            /\ fundamentals stock' = fundamentals stock
            /\ stockanalysis_link stock' = stockanalysis_link stock
            /\ is_etf stock' = is_etf stock
            /\ aggregate_activity stock' = aggregate_activity stock
            /\ investor_count stock' = investor_count stock
            /\ mention_count stock' = mention_count stock.
Proof.
  split; [reflexivity|].
  eexists. split; [reflexivity|]. simpl.
  repeat split.
  - apply length_map.
  - intros i stock Hi.
    rewrite list_lookup_fmap, Hi. simpl.
    destruct (String.eqb_spec (ticker stock) t) as [E|E].
    + exists (with_thesis stock (Some s)).
      split; [reflexivity|]. split; [intros Hne; contradiction|].
      split; [reflexivity|]. apply with_thesis_frame.
    + exists stock. repeat split; try reflexivity. intros Heq; contradiction.
Qed.

End ThesisUpdate.

(** ** The thesis endpoint *)

Section ThesisEndpoint.
Import Js Control ThesisApi.

Lemma failure_has_failure_shape (code : Z) (message : string) :
  truthy message = true ->
  contract_shape (failure code message)
  /\ exists r, response_body (failure code message) = Some r /\ failure_shape r.
Proof.
  intros Hm.
  assert (Hf : failure_shape {| success := false; thesis := None;
                                error := Some message; response_ticker := None |}).
  { repeat split. exists message. split; [reflexivity | exact Hm]. }
  split.
  - eexists. split; [reflexivity | right; exact Hf].
  - eexists. split; [reflexivity | exact Hf].
Qed.

Lemma strict_neq_false (a b : option string) :
  strict_neq a b = false -> a = b.
Proof.
  destruct a as [x|], b as [y|]; simpl; try discriminate; try reflexivity.
  intros H. apply negb_false_iff, String.eqb_eq in H. congruence.
Qed.

Lemma falsy_false (x : option string) :
  falsy x = false -> exists s, x = Some s /\ truthy s = true.
Proof.
  destruct x as [s|]; simpl; [|discriminate].
  intros H. apply negb_false_iff in H. eauto.
Qed.

(** Unfolds one invocation of the handler down to its case analysis. *)
Ltac run_handler :=
  unfold run, call, handler, try_catch, request_json, fetch, log, return_, throw,
    modify, mbind, mret, eff_bind, eff_ret, bind, ret, fetches; simpl.

(** The response and the log of a POST, case by case. *)
Lemma post_response (env : gmap string string)
    (net : string -> string -> fetch_outcome) (request : Request) :
  method request = "POST" ->
  exists resp log,
    run env net request = (inl resp, log)
    /\ contract_shape resp
    /\ (~ password_accepted env request ->
        (exists r, response_body resp = Some r /\ failure_shape r)
        /\ fetches log = []).
Proof.
  intros Hpost. run_handler. rewrite Hpost. simpl.
  destruct (body request) as [| |b] eqn:Hbody; simpl.
  - do 2 eexists. split; [reflexivity|].
    split; [apply failure_has_failure_shape; reflexivity|].
    intros _. split; [apply failure_has_failure_shape; reflexivity | reflexivity].
  - do 2 eexists. split; [reflexivity|].
    split; [apply failure_has_failure_shape; reflexivity|].
    intros _. split; [apply failure_has_failure_shape; reflexivity | reflexivity].
  - destruct (falsy (env !! "THESIS_PASSWORD")) eqn:Hconf; simpl.
    { do 2 eexists. split; [reflexivity|].
      split; [apply failure_has_failure_shape; reflexivity|].
      intros _. split; [apply failure_has_failure_shape; reflexivity | reflexivity]. }
    destruct (strict_neq (password b) (env !! "THESIS_PASSWORD")) eqn:Hpw; simpl.
    { do 2 eexists. split; [reflexivity|].
      split; [apply failure_has_failure_shape; reflexivity|].
      intros _. split; [apply failure_has_failure_shape; reflexivity | reflexivity]. }
    assert (Hacc : password_accepted env request).
    { apply strict_neq_false in Hpw. apply falsy_false in Hconf.
      destruct Hconf as [p [Hp _]]. exists b, p. rewrite Hpw. auto. }
    destruct (falsy (ticker b)) eqn:Htick; simpl.
    { do 2 eexists. split; [reflexivity|].
      split; [apply failure_has_failure_shape; reflexivity|].
      intros Hno. contradiction. }
    destruct (falsy (env !! "PERPLEXITY_API_KEY")) eqn:Hkey; simpl.
    { do 2 eexists. split; [reflexivity|].
      split; [apply failure_has_failure_shape; reflexivity|].
      intros Hno. contradiction. }
    destruct (net _ _) as [e|r]; simpl.
    { do 2 eexists. split; [reflexivity|].
      split; [apply failure_has_failure_shape; reflexivity|].
      intros Hno. contradiction. }
    destruct (ok r); simpl.
    + destruct (content r) as [c|]; simpl.
      * destruct (truthy (or_else (trim <$> c) "")) eqn:Hth; simpl.
        -- do 2 eexists. split; [reflexivity|]. split.
           ++ eexists. split; [reflexivity|]. left. repeat split. eauto.
           ++ intros Hno. contradiction.
        -- do 2 eexists. split; [reflexivity|].
           split; [apply failure_has_failure_shape; reflexivity|].
           intros Hno. contradiction.
      * do 2 eexists. split; [reflexivity|].
        split; [apply failure_has_failure_shape; reflexivity|].
        intros Hno. contradiction.
    + destruct (text r) as [errorText|]; simpl.
      * do 2 eexists. split; [reflexivity|].
        split; [apply failure_has_failure_shape; reflexivity|].
        intros Hno. contradiction.
      * do 2 eexists. split; [reflexivity|].
        split; [apply failure_has_failure_shape; reflexivity|].
        intros Hno. contradiction.
Qed.

(** A CORS preflight with a wrong password is answered with an empty body:
    the response contract, stated for every request, fails there. *)
Lemma preflight_breaks_response_contract :
  run Samples.env Samples.offline Samples.preflight_request = (inl preflight, [])
  /\ response_body preflight = None
  /\ ~ password_accepted Samples.env Samples.preflight_request
  /\ ~ Contract.response_contract Samples.env Samples.offline Samples.preflight_request.
Proof.
  split; [reflexivity|]. split; [reflexivity|]. split.
  - intros [b [p [Hb [Hp He]]]]. injection Hb as <-. simpl in Hp.
    injection Hp as <-. vm_compute in He. discriminate.
  - intros [resp [log [Hrun [[r [Hr _]] _]]]].
    vm_compute in Hrun. injection Hrun as <- _. simpl in Hr. discriminate.
Qed.

(** C3. The handler never rejects. A CORS preflight (method OPTIONS) is
    answered 200 with an empty body and nothing else happens; every other
    request gets a body of the shape [{ success: true, thesis }] or
    [{ success: false, error }]; and a request whose password is not the
    configured THESIS_PASSWORD never reaches the Perplexity API and,
    unless it is a preflight, gets [success: false] with an error message. *)
Theorem handler_response_contract (env : gmap string string)
    (net : string -> string -> fetch_outcome) (request : Request) :
  exists resp log,
    run env net request = (inl resp, log)
    /\ (method request = "OPTIONS" -> resp = preflight /\ log = [])
    /\ (method request <> "OPTIONS" -> contract_shape resp)
    /\ (~ password_accepted env request ->
        fetches log = []
        /\ (method request <> "OPTIONS" ->
            exists r, response_body resp = Some r /\ failure_shape r)).
Proof.
  destruct (String.eqb_spec (method request) "OPTIONS") as [Hopt|Hopt].
  - exists preflight, []. run_handler. rewrite Hopt. simpl.
    split; [reflexivity|]. split; [auto|]. split; [intros Hne; contradiction|].
    intros _. split; [reflexivity | intros Hne; contradiction].
  - destruct (String.eqb_spec (method request) "POST") as [Hpost|Hpost].
    + destruct (post_response env net request Hpost) as [resp [log [Hrun [Hshape Hpw]]]].
      exists resp, log. split; [exact Hrun|].
      split; [intros E; contradiction|]. split; [auto|].
      intros Hno. destruct (Hpw Hno) as [Hfail Hnofetch]. auto.
    + exists (failure 405 "Method not allowed"), []. run_handler.
      apply String.eqb_neq in Hopt, Hpost. rewrite Hopt, Hpost. simpl.
      split; [reflexivity|]. split; [intros E; apply String.eqb_neq in Hopt; contradiction|].
      split; [intros _; apply (failure_has_failure_shape 405 "Method not allowed"); reflexivity|].
      intros _. split; [reflexivity|].
      intros _. apply (failure_has_failure_shape 405 "Method not allowed"). reflexivity.
Qed.

(** A POST with the configured password: one fetch, the trimmed thesis and
    the ticker in the body. *)
Example authorized_request_succeeds :
  run Samples.env Samples.answering Samples.authorized_request
  = (inl {| response_body :=
              Some {| success := true; thesis := Some "Durable cash flows.";
                      error := None; response_ticker := Some "AAPL" |};
            status := 200; headers := json_headers |},
     [PerplexityFetch "Bearer key"
        (build_prompt "AAPL" (Some "Apple Inc.") (Some ["Warren Buffett"; "Bill Ackman"]))]).
Proof. reflexivity. Qed.

(** A POST with a wrong password: 401 and no fetch. *)
Example wrong_password_is_refused :
  run Samples.env Samples.answering Samples.post_request
  = (inl (failure 401 "Invalid password"), []).
Proof. reflexivity. Qed.

(** The network is down: the fetch is logged, the error is caught. *)
Example offline_is_internal_error :
  run Samples.env Samples.offline Samples.authorized_request
  = (inl (failure 500 "Internal server error"),
     [PerplexityFetch "Bearer key"
        (build_prompt "AAPL" (Some "Apple Inc.") (Some ["Warren Buffett"; "Bill Ackman"]));
      ConsoleError "Thesis generation error:"]).
Proof. reflexivity. Qed.

End ThesisEndpoint.

(** ** Thesis generation in the table *)

Section ThesisGeneration.
Import Js Control StockTypes StockColumns ThesisGenerator.

(** Unfolds one click down to its case analysis. *)
Ltac run_click :=
  unfold click, click_in, call, handleGenerate, try_finally, try_catch, fetch,
    response_json, window_prompt, setError, setIsLoading, sessionStorage_getItem,
    sessionStorage_setItem, onThesisUpdate,
    return_, throw, get, modify, mbind, mret, eff_bind, eff_ret, bind, ret; simpl.

Lemma or_else_truthy (a : option string) (b : string) :
  truthy b = true -> truthy (or_else a b) = true.
Proof.
  intros Hb. destruct a as [s|]; simpl; [|exact Hb].
  destruct (truthy s) eqn:E; [exact E | exact Hb].
Qed.

(** Every failure but a thrown [Error] without message has a message. *)
Lemma failure_message_truthy (o : fetch_outcome) (message : string) :
  failure_message o = Some message -> carries_message o = true ->
  truthy message = true.
Proof.
  destruct o as [[m|]|ok [[m|]|payload]]; simpl; intros Hm Hc.
  - congruence.
  - injection Hm as <-. reflexivity.
  - congruence.
  - injection Hm as <-. reflexivity.
  - destruct (negb ok || negb (payload_success payload))%bool; [|discriminate].
    injection Hm as <-. apply or_else_truthy. reflexivity.
Qed.

(** A click issues at most one request, whatever happens. *)
Lemma click_at_most_one_request (prompt_answer : option string)
    (api : ThesisApi.ThesisRequest -> fetch_outcome) (stock : Stock) (w : World) :
  (length (requests (snd (click prompt_answer api stock w))) <= S (length (requests w)))%nat.
Proof.
  run_click.
  destruct (isLoading w); simpl; [lia|].
  destruct (ThesisApi.falsy (sessionStorage w !! "thesis_password")); simpl.
  - destruct (truthy (or_else prompt_answer "")); simpl; [|lia].
    destruct (api _) as [e|ok [e|payload]]; simpl;
      try (rewrite length_app; simpl; lia).
    destruct (negb ok || negb (payload_success payload))%bool; simpl;
      rewrite length_app; simpl; lia.
  - destruct (api _) as [e|ok [e|payload]]; simpl;
      try (rewrite length_app; simpl; lia).
    destruct (negb ok || negb (payload_success payload))%bool; simpl;
      rewrite length_app; simpl; lia.
Qed.

(** C8. When the request of a click fails -- [fetch] or [response.json()]
    throws, the status is not ok, or the payload lacks [success] -- the
    click ends normally with exactly that one request issued, no thesis
    update, the loading flag reset and the failure message in the error
    state; with the button on screen, the message is rendered inline next
    to it (a thrown [Error] with an empty message leaves nothing to
    render). *)
Theorem thesis_failure_shown_inline_once (prompt_answer : option string)
    (api : ThesisApi.ThesisRequest -> fetch_outcome) (stock : Stock) (w : World)
    (password message : string) :
  isLoading w = false ->
  password_for prompt_answer w = Some password ->
  failure_message (api (request_for stock password)) = Some message ->
  truthy (or_else (trim <$> thesis stock) "") = false ->
  exists w',
    click prompt_answer api stock w = (inl tt, w')
    /\ requests w' = requests w ++ [request_for stock password]
    /\ updates w' = updates w
    /\ isLoading w' = false
    /\ error w' = Some message
    /\ (truthy message = true -> render stock w' = button_with_error message)
    /\ (carries_message (api (request_for stock password)) = true ->
        render stock w' = button_with_error message).
Proof.
  intros Hidle Hpw Hfail Hbutton.
  assert (Hrender : forall w', isLoading w' = false -> error w' = Some message ->
            truthy message = true -> render stock w' = button_with_error message).
  { intros w' Hl He Ht. unfold render, button_with_error.
    rewrite Hbutton, Hl, He, Ht. reflexivity. }
  assert (Hgoal : exists w',
    click prompt_answer api stock w = (inl tt, w')
    /\ requests w' = requests w ++ [request_for stock password]
    /\ updates w' = updates w
    /\ isLoading w' = false
    /\ error w' = Some message).
  { unfold password_for in Hpw. run_click. rewrite Hidle. simpl.
    destruct (ThesisApi.falsy (sessionStorage w !! "thesis_password")) eqn:Hstored; simpl.
    - destruct (truthy (or_else prompt_answer "")) eqn:Hans; [|discriminate].
      injection Hpw as Hpw. rewrite Hpw. simpl.
      destruct (api (request_for stock password)) as [[m|]|ok [[m|]|payload]];
        simpl in Hfail |- *;
        try (injection Hfail as <-; eexists; repeat split; reflexivity).
      destruct (negb ok || negb (payload_success payload))%bool; [|discriminate].
      injection Hfail as <-. simpl. eexists; repeat split; reflexivity.
    - rewrite Hpw. simpl.
      destruct (api (request_for stock password)) as [[m|]|ok [[m|]|payload]];
        simpl in Hfail |- *;
        try (injection Hfail as <-; eexists; repeat split; reflexivity).
      destruct (negb ok || negb (payload_success payload))%bool; [|discriminate].
      injection Hfail as <-. simpl. eexists; repeat split; reflexivity. }
  destruct Hgoal as [w' [Hclick [Hreq [Hupd [Hload Herr]]]]].
  exists w'. repeat split; try assumption.
  - intros Ht. apply Hrender; assumption.
  - intros Hc. apply Hrender; try assumption.
    eapply failure_message_truthy; eassumption.
Qed.

Lemma thesis_failure_shown_inline_once_witness :
  exists w',
    click None Samples.unauthorized Samples.aapl Samples.at_rest = (inl tt, w')
    /\ requests w' = requests Samples.at_rest ++ [request_for Samples.aapl "guess"]
    /\ updates w' = updates Samples.at_rest
    /\ isLoading w' = false
    /\ error w' = Some "Invalid password"
    /\ (truthy "Invalid password" = true ->
        render Samples.aapl w' = button_with_error "Invalid password")
    /\ (carries_message (Samples.unauthorized (request_for Samples.aapl "guess")) = true ->
        render Samples.aapl w' = button_with_error "Invalid password").
Proof.
  apply (thesis_failure_shown_inline_once None Samples.unauthorized Samples.aapl
           Samples.at_rest "guess" "Invalid password"); reflexivity.
Defined.

(** A successful request updates the thesis once and leaves no error. *)
Lemma thesis_success_updates (prompt_answer : option string)
    (api : ThesisApi.ThesisRequest -> fetch_outcome) (stock : Stock) (w : World)
    (password : string) (payload : ThesisApi.ThesisResponse) :
  isLoading w = false ->
  password_for prompt_answer w = Some password ->
  api (request_for stock password) = Resolved true (JsonValue (Some payload)) ->
  ThesisApi.success payload = true ->
  exists w',
    click prompt_answer api stock w = (inl tt, w')
    /\ requests w' = requests w ++ [request_for stock password]
    /\ updates w' = updates w ++ [(ticker stock, or_else (ThesisApi.thesis payload) "")]
    /\ isLoading w' = false
    /\ error w' = None.
Proof.
  intros Hidle Hpw Hapi Hok. unfold password_for in Hpw. run_click.
  rewrite Hidle. simpl.
  destruct (ThesisApi.falsy (sessionStorage w !! "thesis_password")) eqn:Hstored; simpl.
  - destruct (truthy (or_else prompt_answer "")) eqn:Hans; [|discriminate].
    injection Hpw as Hpw. rewrite Hpw. simpl. rewrite Hapi. simpl. rewrite Hok. simpl.
    eexists; repeat split; reflexivity.
  - rewrite Hpw. simpl. rewrite Hapi. simpl. rewrite Hok. simpl.
    eexists; repeat split; reflexivity.
Qed.

(** A click while a request is in flight does nothing. *)
Lemma click_while_loading (prompt_answer : option string)
    (api : ThesisApi.ThesisRequest -> fetch_outcome) (stock : Stock) (w : World) :
  isLoading w = true -> click prompt_answer api stock w = (inl tt, w).
Proof. intros Hl. run_click. rewrite Hl. reflexivity. Qed.

(** A click without a password, the prompt dismissed: no request. *)
Lemma click_without_password (prompt_answer : option string)
    (api : ThesisApi.ThesisRequest -> fetch_outcome) (stock : Stock) (w : World) :
  isLoading w = false -> password_for prompt_answer w = None ->
  requests (snd (click prompt_answer api stock w)) = requests w
  /\ updates (snd (click prompt_answer api stock w)) = updates w.
Proof.
  intros Hl Hpw. unfold password_for in Hpw. run_click. rewrite Hl. simpl.
  destruct (ThesisApi.falsy (sessionStorage w !! "thesis_password")) eqn:Hs; simpl.
  - destruct (truthy (or_else prompt_answer "")); [discriminate|]. split; reflexivity.
  - exfalso. rewrite Hpw in Hs. discriminate.
Qed.

(** A thrown [Error] without message: one request, the empty string in the
    error state, and only the button on screen. *)
Example mute_failure_renders_no_text :
  exists w',
    click None Samples.mute Samples.aapl Samples.at_rest = (inl tt, w')
    /\ length (requests w') = 1%nat
    /\ error w' = Some ""
    /\ render Samples.aapl w'
       = Element "div" "flex flex-col items-start gap-1" []
           [Element "button"
              "px-3 py-1 text-xs bg-indigo-600 text-white rounded-md hover:bg-indigo-700 disabled:opacity-60"
              [("type", "button"); ("disabled", "false")] [Text "Generate"]].
Proof. eexists. repeat split; reflexivity. Qed.

Example generous_endpoint_updates_thesis :
  exists w',
    click None Samples.generous Samples.aapl Samples.at_rest = (inl tt, w')
    /\ updates w' = [("AAPL", "Durable cash flows.")]
    /\ error w' = None.
Proof. eexists. repeat split; reflexivity. Qed.

End ThesisGeneration.

(** ** Splitting and joining *)

Section SplitJoin.
Import Js.

Lemma split_without_separator (sep : ascii) (x : string) :
  has_char sep x = false -> split sep x = [x].
Proof.
  induction x as [|c x IH]; simpl; [reflexivity|].
  intros H. apply orb_false_iff in H. destruct H as [Hc Hx].
  rewrite Hc, (IH Hx). reflexivity.
Qed.

Lemma split_append (sep : ascii) (x rest : string) :
  has_char sep x = false ->
  split sep (x +:+ String sep rest) = x :: split sep rest.
Proof.
  induction x as [|c x IH]; simpl; intros H.
  - rewrite Ascii.eqb_refl. reflexivity.
  - apply orb_false_iff in H. destruct H as [Hc Hx].
    rewrite Hc, (IH Hx). reflexivity.
Qed.

(** Splitting a joined list gives the list back, when it is not empty and
    no element contains the separator. *)
Lemma split_join (sep : ascii) (l : list string) :
  l <> [] ->
  (forall x, In x l -> has_char sep x = false) ->
  split sep (join (String sep EmptyString) l) = l.
Proof.
  induction l as [|x l IH]; [congruence|].
  intros _ Hfree. destruct l as [|y l].
  - simpl. apply split_without_separator. apply Hfree. left. reflexivity.
  - change (join (String sep EmptyString) (x :: y :: l))
      with (x +:+ String sep (join (String sep EmptyString) (y :: l))).
    rewrite split_append by (apply Hfree; left; reflexivity).
    f_equal. apply IH; [discriminate|].
    intros z Hz. apply Hfree. right. exact Hz.
Qed.

Lemma join_truthy (sep x : string) (l : list string) :
  truthy x = true -> truthy (join sep (x :: l)) = true.
Proof.
  destruct x as [|c x]; [discriminate|]. intros _.
  destruct l; reflexivity.
Qed.

Example split_trim_sample :
  map trim (split ColumnPreferences.comma "ticker, pe_ratio ,link")
  = ["ticker"; "pe_ratio"; "link"]
  /\ split ColumnPreferences.comma "" = [""].
Proof. split; reflexivity. Qed.

End SplitJoin.

(** ** The share URL of the column picker *)

Section ShareUrl.
Import Js StockTypes ColumnPreferences.

(** The ids of [DEFAULT_COLUMNS] are distinct, not empty, free of commas
    and of surrounding white space. *)
Lemma default_ids_distinct : List.NoDup (map id DEFAULT_COLUMNS).
Proof. apply NoDup_ListNoDup. apply (bool_decide_unpack _). vm_compute. exact I. Qed.

Lemma default_ids_plain (cid : string) :
  In cid (map id DEFAULT_COLUMNS) ->
  truthy cid = true /\ has_char comma cid = false /\ trim cid = cid.
Proof.
  assert (H : forallb (fun i => truthy i && negb (has_char comma i) && String.eqb (trim i) i)
                (map id DEFAULT_COLUMNS) = true) by (vm_compute; reflexivity).
  rewrite forallb_forall in H. intros Hin. specialize (H cid Hin).
  apply andb_true_iff in H. destruct H as [H Htrim].
  apply andb_true_iff in H. destruct H as [Ht Hc].
  apply negb_true_iff in Hc. apply String.eqb_eq in Htrim. auto.
Qed.

Lemma includes_spec (l : list string) (x : string) :
  includes l x = true <-> In x l.
Proof.
  unfold includes. rewrite existsb_exists. split.
  - intros [y [Hin Hy]]. apply String.eqb_eq in Hy. subst. exact Hin.
  - intros Hin. exists x. split; [exact Hin | apply String.eqb_refl].
Qed.

(** With distinct ids, an id is among the visible ones exactly when its
    column is visible. *)
Lemma includes_visible_ids (columns : list ColumnConfig) (c : ColumnConfig) :
  List.NoDup (map id columns) -> In c columns ->
  includes (map id (List.filter visible columns)) (id c) = visible c.
Proof.
  intros Hnd Hin.
  destruct (visible c) eqn:Hv.
  - apply includes_spec. apply in_map. apply filter_In. auto.
  - destruct (includes _ (id c)) eqn:E; [|reflexivity].
    apply includes_spec in E. apply in_map_iff in E.
    destruct E as [c' [Hid Hc']]. apply filter_In in Hc'. destruct Hc' as [Hin' Hv'].
    assert (c' = c); [|congruence].
    clear Hv Hv'. induction columns as [|a columns IH]; [contradiction|].
    simpl in Hnd. apply NoDup_cons_iff in Hnd. destruct Hnd as [Hna Hnd].
    destruct Hin as [->|Hin], Hin' as [->|Hin']; auto.
    + exfalso. apply Hna. rewrite <- Hid. apply (in_map id). exact Hin'.
    + exfalso. apply Hna. rewrite Hid. apply (in_map id). exact Hin.
Qed.

Lemma visibility_found (columns : list ColumnConfig) (cid : string) :
  In cid (map id columns) ->
  exists c, In c columns /\ id c = cid /\ visibility columns cid = Some (visible c).
Proof.
  unfold visibility. intros Hin. apply in_map_iff in Hin. destruct Hin as [c0 [Hid Hin]].
  destruct (List.find (fun col => String.eqb (id col) cid) columns) as [c|] eqn:E.
  - apply find_some in E. destruct E as [Hc Heq]. apply String.eqb_eq in Heq.
    exists c. auto.
  - exfalso. pose proof (find_none _ _ E c0 Hin) as Hn. simpl in Hn.
    apply String.eqb_neq in Hn. contradiction.
Qed.

Lemma visibility_missing (columns : list ColumnConfig) (cid : string) :
  ~ In cid (map id columns) -> visibility columns cid = None.
Proof.
  unfold visibility. intros Hout.
  destruct (List.find (fun col => String.eqb (id col) cid) columns) as [c|] eqn:E;
    [|reflexivity].
  apply find_some in E. destruct E as [Hc Heq]. apply String.eqb_eq in Heq.
  exfalso. apply Hout. rewrite <- Heq. apply (in_map id). exact Hc.
Qed.

Lemma visibility_of_defaults (f : string -> bool) (l : list ColumnConfig) (cid : string) :
  visibility (map (fun col => with_visible col (f (id col))) l) cid
  = if includes (map id l) cid then Some (f cid) else None.
Proof.
  unfold visibility, includes. induction l as [|a l IH]; [reflexivity|].
  simpl. rewrite (String.eqb_sym cid (id a)).
  destruct (String.eqb_spec (id a) cid) as [E|E]; simpl; [rewrite E; reflexivity | exact IH].
Qed.

Lemma toggleColumn_ids (cid : string) (columns : list ColumnConfig) :
  map id (toggleColumn cid columns) = map id columns.
Proof.
  unfold toggleColumn. rewrite map_map. apply map_ext.
  intros col. destruct (String.eqb (id col) cid); reflexivity.
Qed.

(** Unticking the visible columns one by one hides them all. *)
Example all_hidden_by_toggles :
  fold_right toggleColumn DEFAULT_COLUMNS (map id (List.filter visible DEFAULT_COLUMNS))
  = Samples.all_hidden.
Proof. reflexivity. Qed.

Example only_ticker_url :
  getShareableUrl Samples.only_ticker Samples.blank !! "cols" = Some "ticker"
  /\ getShareableUrl DEFAULT_COLUMNS Samples.blank !! "cols"
     = Some "ticker,company_name,pe_ratio,pb_ratio,week_52_low,week_52_high,pct_above_52w_low,pct_below_52w_high,sources,investors,activity,link".
Proof. split; reflexivity. Qed.

(** Hiding every column gives the URL an empty [cols], which the hook
    takes for no parameter at all: a browser without stored preferences
    shows the defaults, ticker included. *)
Lemma all_hidden_breaks_round_trip :
  map id Samples.all_hidden = map id DEFAULT_COLUMNS
  /\ getShareableUrl Samples.all_hidden Samples.blank !! "cols" = Some ""
  /\ useColumnPreferences Samples.no_parse
       (open_url (getShareableUrl Samples.all_hidden Samples.blank) ∅) = DEFAULT_COLUMNS
  /\ visibility Samples.all_hidden "ticker" = Some false
  /\ ~ Contract.share_url_round_trip Samples.no_parse Samples.all_hidden Samples.blank ∅.
Proof.
  split; [reflexivity|]. split; [reflexivity|]. split; [reflexivity|].
  split; [reflexivity|].
  intros H. specialize (H "ticker"). vm_compute in H. discriminate.
Qed.

(** C10. For a configuration whose ids are those of [DEFAULT_COLUMNS] and
    that shows at least one column, opening the URL of [getShareableUrl]
    -- whatever the other query parameters and the [localStorage] of the
    browser that opens it -- gives every column id the visibility it had. *)
Theorem share_url_round_trip_visible
    (parse : string -> option (list ColumnConfig)) (columns : list ColumnConfig)
    (w : Window) (storage : gmap string string) :
  Permutation (map id columns) (map id DEFAULT_COLUMNS) ->
  (exists c, In c columns /\ visible c = true) ->
  Contract.share_url_round_trip parse columns w storage.
Proof.
  intros Hperm [c0 [Hin0 Hv0]] cid.
  assert (Hnd : List.NoDup (map id columns)).
  { eapply Permutation_NoDup; [symmetry; exact Hperm | exact default_ids_distinct]. }
  set (ids := map id (List.filter visible columns)).
  assert (Hplain : forall i, In i ids ->
            truthy i = true /\ has_char comma i = false /\ trim i = i).
  { intros i Hi. apply default_ids_plain. eapply Permutation_in; [exact Hperm|].
    unfold ids in Hi. apply in_map_iff in Hi. destruct Hi as [c [<- Hc]].
    apply filter_In in Hc. apply (in_map id). tauto. }
  assert (Hne : ids <> []).
  { intros E. assert (Hi : In (id c0) ids).
    { unfold ids. apply (in_map id). apply filter_In. auto. }
    rewrite E in Hi. contradiction. }
  assert (Hurl : getColumnsFromUrl (open_url (getShareableUrl columns w) storage) = Some ids).
  { unfold getColumnsFromUrl, open_url, getShareableUrl. simpl.
    rewrite lookup_insert_eq. fold ids.
    destruct ids as [|i ids'] eqn:Eids; [congruence|].
    rewrite join_truthy by (apply Hplain; left; reflexivity).
    f_equal. change "," with (String comma EmptyString).
    rewrite split_join; [| discriminate | intros x Hx; apply Hplain; exact Hx].
    rewrite <- (map_id (i :: ids')) at 2. apply map_ext_in.
    intros x Hx. apply Hplain. exact Hx. }
  unfold useColumnPreferences. rewrite Hurl.
  rewrite (visibility_of_defaults (includes ids)).
  destruct (includes (map id DEFAULT_COLUMNS) cid) eqn:Hcid.
  - apply includes_spec in Hcid.
    assert (Hcol : In cid (map id columns)).
    { eapply Permutation_in; [symmetry; exact Hperm | exact Hcid]. }
    destruct (visibility_found columns cid Hcol) as [c [Hc [Hid Hvis]]].
    rewrite Hvis. f_equal. rewrite <- Hid. apply includes_visible_ids; assumption.
  - symmetry. apply visibility_missing. intros Hcol.
    assert (Hd : In cid (map id DEFAULT_COLUMNS)).
    { eapply Permutation_in; [exact Hperm | exact Hcol]. }
    apply includes_spec in Hd. congruence.
Qed.

Lemma share_url_round_trip_visible_witness :
  Contract.share_url_round_trip Samples.no_parse Samples.only_ticker Samples.blank ∅.
Proof.
  apply (share_url_round_trip_visible Samples.no_parse Samples.only_ticker Samples.blank ∅).
  - apply Permutation_refl.
  - exists (with_visible {| id := "ticker"; label := "Ticker"; visible := true;
                            group := basic |} true).
    split; [left; reflexivity | reflexivity].
Defined.

End ShareUrl.

(** ** Fundamentals and their consumers *)

Section FundamentalsFields.
Import Js StockTypes StockColumns Contract.







End FundamentalsFields.

(** ** Field names the presentation layer binds to *)

Section FieldNames.
Import Js StockTypes StockColumns Artifact Contract.

(** The ETF column reads [is_etf], which is not among the listed names:
    two stocks that agree on every listed field get different cells. *)
Lemma is_etf_column_reads_unlisted_field :
  In ["is_etf"] ui_reads
  /\ listed ["is_etf"] = false
  /\ agree_on_listed Samples.aapl (Samples.stock_of "AAPL" Samples.technology true "Hold")
  /\ (exists acc, accessor_of "is_etf" = Some acc
        /\ acc Samples.aapl = VStr "No"
        /\ acc (Samples.stock_of "AAPL" Samples.technology true "Hold") = VStr "Yes")
  /\ ~ (forall p, In p ui_reads -> listed p = true).
Proof.
  assert (Hin : In ["is_etf"] ui_reads) by (vm_compute; tauto).
  split; [exact Hin|]. split; [reflexivity|].
  split; [repeat split|].
  split; [eexists; repeat split; reflexivity|].
  intros H. specialize (H ["is_etf"] Hin). discriminate H.
Qed.

(** The paths recorded for a column are all its accessor depends on: on
    two stocks that agree on them it returns the same value. *)
Lemma accessors_read_recorded_paths (col : ColumnDef) (acc : Stock -> value) (a b : Stock) :
  In col getStockColumns -> accessor col = Some acc ->
  (forall p, In p (reads col) -> project p a = project p b) ->
  acc a = acc b.
Proof.
  intros Hin Hacc Hagree. unfold getStockColumns in Hin. simpl in Hin.
  repeat (destruct Hin as [Hin|Hin];
          [subst col; simpl in Hacc; try discriminate Hacc; injection Hacc as <-;
           pose proof (Hagree _ (or_introl eq_refl)) as H; simpl in H;
           injection H as H; unfold fundamental, or_NA, of_count; rewrite H; reflexivity
          |]).
  contradiction.
Qed.

(** Settles a membership in a literal list of paths. *)
Ltac path_case :=
  first [left; reflexivity | right; simpl; tauto].

(** C4. Every property path the React presentation layer reads from a
    stock record is one of ticker, company_name, sources,
    dataroma_data.investors, substack_data.mentions, fundamentals.*,
    aggregate_activity, investor_count, mention_count, stockanalysis_link,
    or one of is_etf and thesis; the DataTables page binds its columns to
    listed names, to fundamentals at the top level of the row, and to
    dataroma_data.activity and substack_data.thesis; mention_count is
    read by neither. *)
Theorem presentation_layer_field_names :
  (forall p, In p ui_reads -> listed p = true \/ In p extra_names)
  /\ (forall p, In p page_reads -> listed p = true \/ In p page_names)
  /\ ~ In ["mention_count"] (ui_reads ++ page_reads).
Proof.
  split; [|split].
  - intros p Hin. vm_compute in Hin.
    repeat (destruct Hin as [Hin|Hin]; [subst p; path_case|]). contradiction.
  - intros p Hin. vm_compute in Hin.
    repeat (destruct Hin as [Hin|Hin]; [subst p; path_case|]). contradiction.
  - intros Hin. vm_compute in Hin.
    repeat (destruct Hin as [Hin|Hin]; [discriminate Hin|]). contradiction.
Qed.

End FieldNames.

(** ** Column preferences: toggles, the URL and the storage *)

Section ColumnToggles.
Import Js StockTypes ColumnPreferences.

Lemma with_visible_back (col : ColumnConfig) :
  with_visible (with_visible col (negb (visible col))) (negb (negb (visible col))) = col.
Proof. destruct col as [i l v g]. simpl. rewrite negb_involutive. reflexivity. Qed.

(** X1. Toggling a column twice gives the configuration back, whatever
    the id and whether or not ids repeat. *)
Theorem toggleColumn_twice (cid : string) (columns : list ColumnConfig) :
  toggleColumn cid (toggleColumn cid columns) = columns.
Proof.
  unfold toggleColumn. rewrite map_map. rewrite <- (map_id columns) at 2.
  apply map_ext. intros col.
  destruct (String.eqb (id col) cid) eqn:E; simpl; rewrite E; [|reflexivity].
  apply with_visible_back.
Qed.

Lemma visibility_map (f : ColumnConfig -> ColumnConfig) (columns : list ColumnConfig)
    (cid : string) :
  (forall col, id (f col) = id col) ->
  visibility (map f columns) cid
  = (fun col => visible (f col)) <$> List.find (fun col => String.eqb (id col) cid) columns.
Proof.
  intros Hid. unfold visibility. induction columns as [|a columns IH]; [reflexivity|].
  simpl. rewrite Hid. destruct (String.eqb (id a) cid); [reflexivity | exact IH].
Qed.

(** X2. [toggleColumn] flips the visibility of the id it is given and of
    no other id, and keeps ids, labels, groups and the order of the
    columns; an id that no column has changes nothing. *)
Theorem toggleColumn_flips_one (cid : string) (columns : list ColumnConfig) :
  (forall other,
     visibility (toggleColumn cid columns) other
     = if String.eqb cid other then negb <$> visibility columns other
       else visibility columns other)
  /\ map id (toggleColumn cid columns) = map id columns
  /\ map label (toggleColumn cid columns) = map label columns
  /\ map group (toggleColumn cid columns) = map group columns
  /\ (~ In cid (map id columns) -> toggleColumn cid columns = columns).
Proof.
  split; [|split; [|split; [|split]]].
  - intros other. unfold toggleColumn.
    rewrite visibility_map by (intros col; destruct (String.eqb (id col) cid); reflexivity).
    unfold visibility.
    destruct (List.find (fun col => String.eqb (id col) other) columns) as [c|] eqn:E.
    + apply find_some in E. destruct E as [_ Hc]. apply String.eqb_eq in Hc. subst other.
      simpl. rewrite (String.eqb_sym cid (id c)).
      destruct (String.eqb (id c) cid); reflexivity.
    + simpl. destruct (String.eqb cid other); reflexivity.
  - apply toggleColumn_ids.
  - unfold toggleColumn. rewrite map_map. apply map_ext.
    intros col. destruct (String.eqb (id col) cid); reflexivity.
  - unfold toggleColumn. rewrite map_map. apply map_ext.
    intros col. destruct (String.eqb (id col) cid); reflexivity.
  - intros Hout. unfold toggleColumn. rewrite <- (map_id columns) at 2.
    apply map_ext_in. intros col Hcol.
    destruct (String.eqb_spec (id col) cid) as [E|E]; [|reflexivity].
    exfalso. apply Hout. rewrite <- E. apply (in_map id). exact Hcol.
Qed.

(** X3. After [setColumnVisibility cid v] the id [cid], if some column
    has it, is visible exactly when [v] says so, every other id keeps its
    visibility, and setting the same value again changes nothing. *)
Theorem setColumnVisibility_sets_one (cid : string) (v : bool)
    (columns : list ColumnConfig) :
  (forall other,
     visibility (setColumnVisibility cid v columns) other
     = if String.eqb cid other then (fun _ => v) <$> visibility columns other
       else visibility columns other)
  /\ setColumnVisibility cid v (setColumnVisibility cid v columns)
     = setColumnVisibility cid v columns
  /\ map id (setColumnVisibility cid v columns) = map id columns.
Proof.
  split; [|split].
  - intros other. unfold setColumnVisibility.
    rewrite visibility_map by (intros col; destruct (String.eqb (id col) cid); reflexivity).
    unfold visibility.
    destruct (List.find (fun col => String.eqb (id col) other) columns) as [c|] eqn:E.
    + apply find_some in E. destruct E as [_ Hc]. apply String.eqb_eq in Hc. subst other.
      simpl. rewrite (String.eqb_sym cid (id c)).
      destruct (String.eqb (id c) cid); reflexivity.
    + simpl. destruct (String.eqb cid other); reflexivity.
  - unfold setColumnVisibility. rewrite map_map. apply map_ext. intros col.
    destruct (String.eqb (id col) cid) eqn:E; simpl; rewrite E; reflexivity.
  - unfold setColumnVisibility. rewrite map_map. apply map_ext.
    intros col. destruct (String.eqb (id col) cid); reflexivity.
Qed.

(** X4. With a non-empty [cols] parameter in the URL the hook starts from
    [DEFAULT_COLUMNS] -- same ids, labels, groups and order -- whatever
    [localStorage] holds, and shows exactly the columns whose id is one
    of the comma-separated names, trimmed; names that are no column id
    have no effect. *)
Theorem url_columns_override_storage (parse : string -> option (list ColumnConfig))
    (w : Window) (cols : string) :
  searchParams w !! "cols" = Some cols ->
  truthy cols = true ->
  map id (useColumnPreferences parse w) = map id DEFAULT_COLUMNS
  /\ map label (useColumnPreferences parse w) = map label DEFAULT_COLUMNS
  /\ map group (useColumnPreferences parse w) = map group DEFAULT_COLUMNS
  /\ visibleColumns (useColumnPreferences parse w)
     = map (fun col => with_visible col true)
         (List.filter (fun col => includes (map trim (split comma cols)) (id col))
            DEFAULT_COLUMNS).
Proof.
  intros Hcols Htruthy.
  unfold useColumnPreferences, getColumnsFromUrl. rewrite Hcols, Htruthy.
  set (names := map trim (split comma cols)).
  repeat split; try (rewrite map_map; reflexivity).
  unfold visibleColumns.
  induction DEFAULT_COLUMNS as [|a l IH]; [reflexivity|].
  simpl. destruct (includes names (id a)); simpl; [f_equal|]; exact IH.
Qed.

Lemma url_columns_override_storage_witness :
  let w := open_url (<["cols" := "ticker, nope ,link"]> ∅)
             (<[STORAGE_KEY := "[]"]> ∅) in
  map id (useColumnPreferences Samples.no_parse w) = map id DEFAULT_COLUMNS
  /\ map label (useColumnPreferences Samples.no_parse w) = map label DEFAULT_COLUMNS
  /\ map group (useColumnPreferences Samples.no_parse w) = map group DEFAULT_COLUMNS
  /\ visibleColumns (useColumnPreferences Samples.no_parse w)
     = map (fun col => with_visible col true)
         (List.filter
            (fun col => includes (map trim (split comma "ticker, nope ,link")) (id col))
            DEFAULT_COLUMNS).
Proof.
  apply (url_columns_override_storage Samples.no_parse
           (open_url (<["cols" := "ticker, nope ,link"]> ∅) (<[STORAGE_KEY := "[]"]> ∅))
           "ticker, nope ,link"); reflexivity.
Defined.

(** X5. Without a usable [cols] parameter, the columns saved by the
    effect of the hook are the columns the next page load starts from,
    provided [JSON.parse] reads back what [JSON.stringify] wrote; a stored
    text that does not parse gives [DEFAULT_COLUMNS]. The stored columns
    are taken as they are, without a look at their ids. *)
Theorem stored_columns_reload
    (parse : string -> option (list ColumnConfig))
    (stringify : list ColumnConfig -> string)
    (columns : list ColumnConfig) (w : Window) :
  getColumnsFromUrl w = None ->
  truthy (stringify columns) = true ->
  (parse (stringify columns) = Some columns ->
   useColumnPreferences parse (persist stringify columns w) = columns)
  /\ (parse (stringify columns) = None ->
      useColumnPreferences parse (persist stringify columns w) = DEFAULT_COLUMNS).
Proof.
  intros Hurl Htruthy.
  assert (Hurl' : getColumnsFromUrl (persist stringify columns w) = None) by exact Hurl.
  unfold useColumnPreferences. rewrite Hurl'.
  unfold getColumnsFromStorage, persist. simpl.
  rewrite lookup_insert_eq, Htruthy.
  split; intros Hparse; rewrite Hparse; reflexivity.
Qed.

Lemma stored_columns_reload_witness :
  (Some Samples.only_ticker = Some Samples.only_ticker ->
   useColumnPreferences (fun _ => Some Samples.only_ticker)
     (persist (fun _ => "[...]") Samples.only_ticker Samples.blank) = Samples.only_ticker)
  /\ (Some Samples.only_ticker = None ->
      useColumnPreferences (fun _ => Some Samples.only_ticker)
        (persist (fun _ => "[...]") Samples.only_ticker Samples.blank) = DEFAULT_COLUMNS).
Proof.
  apply (stored_columns_reload (fun _ => Some Samples.only_ticker) (fun _ => "[...]")
           Samples.only_ticker Samples.blank); reflexivity.
Defined.

End ColumnToggles.

(** ** Lower case, trimming and sorting of strings *)

Section StringFacts.
Import Js StockColumns.

Lemma string_leb_trans (a b c : string) :
  String.leb a b = true -> String.leb b c = true -> String.leb a c = true.
Proof.
  unfold String.leb.
  destruct (String.compare a b) eqn:Eab; [| |discriminate];
    (destruct (String.compare b c) eqn:Ebc; [| |discriminate]); intros _ _.
  - apply String.compare_eq_iff in Eab, Ebc. subst.
    assert (E : String.compare c c = Eq) by (apply (String_as_OT.cmp_eq c c); reflexivity).
    rewrite E. reflexivity.
  - apply String.compare_eq_iff in Eab. subst. rewrite Ebc. reflexivity.
  - apply String.compare_eq_iff in Ebc. subst. rewrite Eab. reflexivity.
  - apply String_as_OT.cmp_lt in Eab, Ebc.
    assert (E : String.compare a c = Lt).
    { apply (String_as_OT.cmp_lt a c). eapply String_as_OT.lt_trans; eassumption. }
    rewrite E. reflexivity.
Qed.

Lemma lower_white_space (c : ascii) : is_white_space (lower c) = is_white_space c.
Proof. destruct c as [[] [] [] [] [] [] [] []]; reflexivity. Qed.

Lemma lower_twice (c : ascii) : lower (lower c) = lower c.
Proof. destruct c as [[] [] [] [] [] [] [] []]; reflexivity. Qed.

Lemma toLowerCase_twice (s : string) : toLowerCase (toLowerCase s) = toLowerCase s.
Proof.
  induction s as [|c s IH]; simpl; [reflexivity|]. rewrite lower_twice, IH. reflexivity.
Qed.

Lemma trimStart_lower (s : string) :
  trimStart (toLowerCase s) = toLowerCase (trimStart s).
Proof.
  induction s as [|c s IH]; simpl; [reflexivity|].
  rewrite lower_white_space. destruct (is_white_space c); [exact IH | reflexivity].
Qed.

Lemma trimEnd_lower (s : string) :
  trimEnd (toLowerCase s) = toLowerCase (trimEnd s).
Proof.
  induction s as [|c s IH]; simpl; [reflexivity|].
  rewrite IH, lower_white_space.
  destruct (trimEnd s) as [|d r]; simpl; [destruct (is_white_space c)|]; reflexivity.
Qed.

Lemma trim_lower (s : string) : trim (toLowerCase s) = toLowerCase (trim s).
Proof. unfold trim. rewrite trimStart_lower, trimEnd_lower. reflexivity. Qed.

Lemma trimEnd_twice (s : string) : trimEnd (trimEnd s) = trimEnd s.
Proof.
  induction s as [|c s IH]; simpl; [reflexivity|].
  destruct (trimEnd s) as [|d r] eqn:E.
  - destruct (is_white_space c) eqn:Hc; simpl; [reflexivity|]. rewrite Hc. reflexivity.
  - change (trimEnd (String c (String d r)))
      with (match trimEnd (String d r) with
            | EmptyString => if is_white_space c then EmptyString else String c EmptyString
            | rest' => String c rest'
            end).
    rewrite IH. reflexivity.
Qed.

Lemma trimStart_settled (s : string) (c : ascii) (r : string) :
  trimStart s = String c r -> is_white_space c = false.
Proof.
  induction s as [|a s IH]; simpl; [discriminate|].
  destruct (is_white_space a) eqn:Ha; [exact IH|].
  intros H. injection H as <- _. exact Ha.
Qed.

Lemma trimStart_of_settled (t : string) :
  (forall c r, t = String c r -> is_white_space c = false) -> trimStart t = t.
Proof.
  destruct t as [|c r]; [reflexivity|]. intros H. simpl.
  rewrite (H c r eq_refl). reflexivity.
Qed.

Lemma trimEnd_keeps_head (t : string) (c : ascii) (r : string) :
  trimEnd t = String c r -> exists r', t = String c r'.
Proof.
  destruct t as [|a s]; simpl; [discriminate|].
  destruct (trimEnd s); [destruct (is_white_space a); [discriminate|]|];
    intros H; injection H as <- _; eauto.
Qed.

(** Trimming a trimmed string changes nothing. *)
Lemma trim_twice (s : string) : trim (trim s) = trim s.
Proof.
  unfold trim.
  rewrite (trimStart_of_settled (trimEnd (trimStart s))).
  - apply trimEnd_twice.
  - intros c r H. apply trimEnd_keeps_head in H. destruct H as [r' H].
    eapply trimStart_settled. exact H.
Qed.

Lemma sort_insert_permutation (x : string) (l : list string) :
  Permutation (x :: l) (sort_insert x l).
Proof.
  induction l as [|y l IH]; simpl; [reflexivity|].
  destruct (String.leb x y); [reflexivity|].
  rewrite perm_swap. apply perm_skip. exact IH.
Qed.

Lemma sort_permutation (l : list string) : Permutation l (sort l).
Proof.
  induction l as [|x l IH]; simpl; [reflexivity|].
  rewrite <- sort_insert_permutation. apply perm_skip. exact IH.
Qed.

Lemma sort_insert_sorted (x : string) (l : list string) :
  StronglySorted (fun a b => String.leb a b = true) l ->
  StronglySorted (fun a b => String.leb a b = true) (sort_insert x l).
Proof.
  induction 1 as [|y l Hl IH Hy]; simpl.
  - constructor; constructor.
  - destruct (String.leb x y) eqn:Hxy.
    + constructor; [constructor; assumption|].
      constructor; [exact Hxy|].
      eapply List.Forall_impl; [|exact Hy].
      intros z Hyz. eapply string_leb_trans; eassumption.
    + constructor; [exact IH|].
      eapply Permutation_Forall; [apply sort_insert_permutation|].
      constructor; [|exact Hy].
      destruct (String.leb_total x y) as [H|H]; [congruence | exact H].
Qed.

Lemma sort_sorted (l : list string) :
  StronglySorted (fun a b => String.leb a b = true) (sort l).
Proof.
  induction l as [|x l IH]; simpl; [constructor | apply sort_insert_sorted, IH].
Qed.

Lemma leb_neq_ltb (a b : string) :
  String.leb a b = true -> a <> b -> String.ltb a b = true.
Proof.
  unfold String.leb, String.ltb.
  destruct (String.compare a b) eqn:E; try discriminate; [|reflexivity].
  intros _ Hne. apply String.compare_eq_iff in E. contradiction.
Qed.

(** A sorted list without repetition ascends strictly. *)
Lemma sorted_distinct_strict (l : list string) :
  StronglySorted (fun a b => String.leb a b = true) l -> List.NoDup l ->
  StronglySorted (fun a b => String.ltb a b = true) l.
Proof.
  induction 1 as [|x l Hl IH Hx]; intros Hnd; [constructor|].
  apply NoDup_cons_iff in Hnd. destruct Hnd as [Hout Hnd].
  constructor; [apply IH; exact Hnd|].
  rewrite List.Forall_forall in Hx |- *. intros y Hy.
  apply leb_neq_ltb; [apply Hx; exact Hy|].
  intros E. subst. contradiction.
Qed.

End StringFacts.

(** ** The state of the App: filters, visibility, sectors, search *)

Section AppState.
Import Js StockTypes App.

Lemma find_filter_implied {A} (p q : A -> bool) (l : list A) :
  (forall x, p x = true -> q x = true) ->
  List.find p (List.filter q l) = List.find p l.
Proof.
  intros Himp. induction l as [|x l IH]; [reflexivity|]. simpl.
  destruct (q x) eqn:Hq; simpl.
  - destruct (p x); [reflexivity | exact IH].
  - destruct (p x) eqn:Hp; [|exact IH]. rewrite (Himp x Hp) in Hq. discriminate.
Qed.

Lemma find_filter_excluded {A} (p q : A -> bool) (l : list A) :
  (forall x, p x = true -> q x = false) ->
  List.find p (List.filter q l) = None.
Proof.
  intros Hex. induction l as [|x l IH]; [reflexivity|]. simpl.
  destruct (q x) eqn:Hq; simpl; [|exact IH].
  destruct (p x) eqn:Hp; [|exact IH]. rewrite (Hex x Hp) in Hq. discriminate.
Qed.

Lemma find_app_none {A} (p : A -> bool) (l l' : list A) :
  List.find p l = None -> List.find p (l ++ l') = List.find p l'.
Proof.
  induction l as [|x l IH]; simpl; [reflexivity|].
  destruct (p x); [discriminate | exact IH].
Qed.

Lemma find_app_some {A} (p : A -> bool) (l l' : list A) (x : A) :
  List.find p l = Some x -> List.find p (l ++ l') = Some x.
Proof.
  induction l as [|y l IH]; simpl; [discriminate|].
  destruct (p y); [tauto | exact IH].
Qed.

Lemma filter_out_then_in {A} (p : A -> bool) (l : list A) :
  List.filter p (List.filter (fun x => negb (p x)) l) = [].
Proof.
  induction l as [|x l IH]; [reflexivity|]. simpl.
  destruct (p x) eqn:E; simpl; [exact IH|]. rewrite E. exact IH.
Qed.

(** X6. [setFilterValue id v] followed by [getFilterValue id] gives [v]
    back, or no filter when [v] is the empty string, the empty array,
    null or undefined; the filters of the other ids are as before; and
    the state holds at most one filter for [id], whatever it held. *)
Theorem setFilterValue_then_get (fid : string) (v : filter_value)
    (prev : list ColumnFilter) :
  getFilterValue fid (setFilterValue fid v prev)
  = (if isEmptyValue v then None else Some v)
  /\ (forall other, other <> fid ->
        getFilterValue other (setFilterValue fid v prev) = getFilterValue other prev)
  /\ (length (List.filter (fun f => String.eqb (filter_id f) fid)
                (setFilterValue fid v prev)) <= 1)%nat.
Proof.
  set (next := List.filter (fun f => negb (String.eqb (filter_id f) fid)) prev).
  assert (Hgone : List.find (fun f => String.eqb (filter_id f) fid) next = None).
  { apply find_filter_excluded. intros x Hx. rewrite Hx. reflexivity. }
  assert (Hnone : List.filter (fun f => String.eqb (filter_id f) fid) next = [])
    by apply filter_out_then_in.
  unfold setFilterValue, getFilterValue. fold next.
  split; [|split].
  - destruct (isEmptyValue v); simpl.
    + rewrite Hgone. reflexivity.
    + rewrite (find_app_none _ _ _ Hgone). simpl. rewrite String.eqb_refl. reflexivity.
  - intros other Hne.
    assert (Hkeep : List.find (fun f => String.eqb (filter_id f) other) next
                    = List.find (fun f => String.eqb (filter_id f) other) prev).
    { apply find_filter_implied. intros x Hx. apply String.eqb_eq in Hx.
      apply negb_true_iff, String.eqb_neq. congruence. }
    destruct (isEmptyValue v); simpl; [rewrite Hkeep; reflexivity|].
    destruct (List.find (fun f => String.eqb (filter_id f) other) next) as [f|] eqn:E.
    + rewrite (find_app_some _ _ _ _ E), <- Hkeep. reflexivity.
    + rewrite (find_app_none _ _ _ E), <- Hkeep. simpl.
      apply String.eqb_neq in Hne. rewrite String.eqb_sym, Hne. reflexivity.
  - destruct (isEmptyValue v); simpl.
    + rewrite Hnone. simpl. lia.
    + rewrite List.filter_app, Hnone. simpl. rewrite String.eqb_refl. simpl. lia.
Qed.

Lemma columnVisibility_fold (columns : list ColumnConfig) (m : gmap string bool)
    (cid : string) :
  foldl (fun (visibility : gmap string bool) column =>
           <[id column := visible column]> visibility) m columns !! cid
  = match ColumnPreferences.visibility (rev columns) cid with
    | Some b => Some b
    | None => m !! cid
    end.
Proof.
  revert m. induction columns as [|a columns IH]; intros m; [reflexivity|].
  simpl. rewrite IH. unfold ColumnPreferences.visibility.
  destruct (List.find (fun col => String.eqb (id col) cid) (rev columns)) as [c|] eqn:E.
  - rewrite (find_app_some _ _ _ _ E). reflexivity.
  - rewrite (find_app_none _ _ _ E). simpl.
    destruct (String.eqb_spec (id a) cid) as [Ha|Ha]; simpl.
    + rewrite Ha. apply lookup_insert_eq.
    + apply lookup_insert_ne. exact Ha.
Qed.

Lemma visibility_of_member (columns : list ColumnConfig) (c : ColumnConfig) :
  List.NoDup (map id columns) -> In c columns ->
  ColumnPreferences.visibility columns (id c) = Some (visible c).
Proof.
  intros Hnd Hin. unfold ColumnPreferences.visibility.
  induction columns as [|a columns IH]; [contradiction|].
  simpl in Hnd. apply NoDup_cons_iff in Hnd. destruct Hnd as [Hout Hnd]. simpl.
  destruct Hin as [->|Hin].
  - rewrite String.eqb_refl. reflexivity.
  - destruct (String.eqb_spec (id a) (id c)) as [E|E]; [|apply IH; assumption].
    exfalso. apply Hout. rewrite E. apply (in_map id). exact Hin.
Qed.

(** X7. The visibility record handed to the table maps an id to the
    visibility of the last column that has it; with distinct ids this is
    the visibility the configuration gives the id, and an id that no
    column has is absent from the record. *)
Theorem columnVisibility_last_wins (columns : list ColumnConfig) (cid : string) :
  columnVisibility columns !! cid = ColumnPreferences.visibility (rev columns) cid
  /\ (List.NoDup (map id columns) ->
      columnVisibility columns !! cid = ColumnPreferences.visibility columns cid)
  /\ (~ In cid (map id columns) -> columnVisibility columns !! cid = None).
Proof.
  assert (Hlast : columnVisibility columns !! cid
                  = ColumnPreferences.visibility (rev columns) cid).
  { unfold columnVisibility. rewrite columnVisibility_fold.
    destruct (ColumnPreferences.visibility (rev columns) cid); [reflexivity|].
    apply lookup_empty. }
  split; [exact Hlast|]. split.
  - intros Hnd. rewrite Hlast.
    destruct (in_dec string_dec cid (map id columns)) as [Hin|Hout].
    + apply in_map_iff in Hin. destruct Hin as [c [<- Hc]].
      rewrite (visibility_of_member columns c Hnd Hc).
      apply visibility_of_member; [|apply in_rev in Hc; exact Hc].
      rewrite map_rev. apply NoDup_rev. exact Hnd.
    + rewrite (visibility_missing columns cid Hout).
      apply visibility_missing. rewrite map_rev. intros H. apply in_rev in H. contradiction.
  - intros Hout. rewrite Hlast. apply visibility_missing.
    rewrite map_rev. intros H. apply in_rev in H. contradiction.
Qed.

Lemma sector_set_spec (l : list Stock) (acc : gset string) (s : string) :
  s ∈ foldl (fun (options : gset string) stock =>
               let sector := sector (fundamentals stock) in
               if (truthy sector && negb (String.eqb sector "N/A"))%bool
               then options ∪ {[ sector ]} else options) acc l
  <-> s ∈ acc
      \/ (truthy s = true /\ s <> "N/A"
          /\ exists stock, In stock l /\ sector (fundamentals stock) = s).
Proof.
  revert acc. induction l as [|a l IH]; intros acc; simpl.
  - split; [auto|]. intros [H|[_ [_ [x [[] _]]]]]. exact H.
  - rewrite IH. destruct (truthy (sector (fundamentals a))) eqn:Ht; simpl.
    + destruct (String.eqb_spec (sector (fundamentals a)) "N/A") as [E|E]; simpl.
      * split.
        -- intros [H|[H1 [H2 [x [Hx Hs]]]]]; [auto|]. right. eauto 6.
        -- intros [H|[H1 [H2 [x [[->|Hx] Hs]]]]]; [auto | congruence |].
           right. eauto 6.
      * rewrite elem_of_union, elem_of_singleton. split.
        -- intros [[H|H]|[H1 [H2 [x [Hx Hs]]]]]; [auto | | right; eauto 6].
           subst s. right. split; [exact Ht|]. split; [exact E|]. eauto.
        -- intros [H|[H1 [H2 [x [[->|Hx] Hs]]]]]; [auto | auto |].
           right. eauto 6.
    + split.
      * intros [H|[H1 [H2 [x [Hx Hs]]]]]; [auto|]. right. eauto 6.
      * intros [H|[H1 [H2 [x [[->|Hx] Hs]]]]]; [auto | congruence |].
        right. eauto 6.
Qed.

(** X8. The sector options are exactly the sectors of the stocks that are
    neither empty nor 'N/A', each one once, in strictly ascending order;
    without table data there is no option. *)
Theorem sectorOptions_sorted_distinct (tableData : StockData) :
  (forall s, In s (sectorOptions (Some tableData))
             <-> truthy s = true /\ s <> "N/A"
                 /\ exists stock, In stock (stocks tableData)
                                  /\ sector (fundamentals stock) = s)
  /\ StronglySorted (fun a b => String.ltb a b = true) (sectorOptions (Some tableData))
  /\ sectorOptions None = [].
Proof.
  split; [|split; [|reflexivity]].
  - intros s. unfold sectorOptions.
    split.
    + intros Hin. eapply Permutation_in in Hin; [|symmetry; apply sort_permutation].
      apply list_elem_of_In, elem_of_elements, sector_set_spec in Hin.
      destruct Hin as [Hin|Hin]; [|exact Hin]. apply not_elem_of_empty in Hin. contradiction.
    + intros H. eapply Permutation_in; [apply sort_permutation|].
      apply list_elem_of_In, elem_of_elements, sector_set_spec. right. exact H.
  - unfold sectorOptions. apply sorted_distinct_strict; [apply sort_sorted|].
    eapply Permutation_NoDup; [apply sort_permutation|].
    apply NoDup_ListNoDup, NoDup_elements.
Qed.

(** X9. The search looks at the query only in lower case and without
    surrounding white space: changing the letter case of the query or
    padding it changes no result, and a blank query keeps every row. *)
Theorem globalFilterFn_normalises_query (original : Stock) (filterValue : string) :
  globalFilterFn original (StockColumns.toLowerCase filterValue)
  = globalFilterFn original filterValue
  /\ globalFilterFn original (trim filterValue) = globalFilterFn original filterValue
  /\ (trim filterValue = "" -> globalFilterFn original filterValue = true).
Proof.
  unfold globalFilterFn. split; [|split].
  - rewrite toLowerCase_twice. reflexivity.
  - rewrite trim_lower, trim_twice, <- trim_lower. reflexivity.
  - intros Hblank. rewrite trim_lower, Hblank. reflexivity.
Qed.

Lemma with_thesis_twice (stock : Stock) (a b : option string) :
  with_thesis (with_thesis stock a) b = with_thesis stock b.
Proof. reflexivity. Qed.

(** X10. Thesis updates compose: a second update of the same ticker
    replaces the first, updates of different tickers can be swapped, and
    an update with a ticker that no stock has leaves the data as it is. *)
Theorem handleThesisUpdate_composes (t1 t2 s1 s2 : string) (prev : option StockData) :
  handleThesisUpdate t1 s2 (handleThesisUpdate t1 s1 prev) = handleThesisUpdate t1 s2 prev
  /\ (t1 <> t2 ->
      handleThesisUpdate t1 s1 (handleThesisUpdate t2 s2 prev)
      = handleThesisUpdate t2 s2 (handleThesisUpdate t1 s1 prev))
  /\ (forall d, prev = Some d -> ~ In t1 (map ticker (stocks d)) ->
        handleThesisUpdate t1 s1 prev = prev).
Proof.
  destruct prev as [d|]; [|repeat split; intros; try reflexivity; discriminate].
  split; [|split].
  - unfold handleThesisUpdate. simpl. f_equal. f_equal. rewrite map_map.
    apply map_ext. intros stock.
    destruct (String.eqb (ticker stock) t1) eqn:E; simpl; rewrite E; reflexivity.
  - intros Hne. unfold handleThesisUpdate. simpl. f_equal. f_equal. rewrite !map_map.
    apply map_ext. intros stock.
    destruct (String.eqb (ticker stock) t1) eqn:E1;
      destruct (String.eqb (ticker stock) t2) eqn:E2; simpl; rewrite ?E1, ?E2;
      try reflexivity.
    apply String.eqb_eq in E1, E2. congruence.
  - intros d' Hd Hout. injection Hd as <-. unfold handleThesisUpdate.
    destruct d as [lu ts st sts]. simpl in *. f_equal. f_equal.
    rewrite <- (map_id sts) at 2. apply map_ext_in. intros stock Hin.
    destruct (String.eqb_spec (ticker stock) t1) as [E|E]; [|reflexivity].
    exfalso. apply Hout. rewrite <- E. apply (in_map ticker). exact Hin.
Qed.

End AppState.

(** ** The preset filters of the table *)

Section PresetFilters.
Import Js StockTypes StockColumns.

Variable Number_of_string : string -> number.

(** Whatever [coerceNumber] returns as a number is finite. *)
Lemma coerceNumber_some_finite (v : value) (n : number) :
  coerceNumber Number_of_string v = Some n -> exists q, n = Fin q.
Proof.
  destruct v as [m|s| |]; simpl; try discriminate.
  - destruct m as [q| | |]; simpl; try discriminate.
    intros H. injection H as <-. eauto.
  - destruct (String.eqb (trim s) "" || String.eqb s "N/A")%bool; [discriminate|].
    destruct (Number_of_string s) as [q| | |]; simpl; try discriminate.
    intros H. injection H as <-. eauto.
Qed.

(** X11. [coerceNumber] gives a finite number or nothing: never NaN or an
    infinity, whatever [Number] makes of a string; a finite number is
    given back as it is, and a string that [Number] reads as a finite
    number gives that number unless it is blank or 'N/A'. *)
Theorem coerceNumber_finite_or_nothing (v : value) :
  (forall n, coerceNumber Number_of_string v = Some n -> exists q, n = Fin q)
  /\ (forall n, v = VNum n -> isFinite n = true ->
        coerceNumber Number_of_string v = Some n)
  /\ (forall n, v = VNum n -> isFinite n = false ->
        coerceNumber Number_of_string v = None)
  /\ (forall s, v = VStr s -> trim s <> "" -> s <> "N/A" ->
        isFinite (Number_of_string s) = true ->
        coerceNumber Number_of_string v = Some (Number_of_string s)).
Proof.
  split; [|split; [|split]].
  - intros n. apply coerceNumber_some_finite.
  - intros n -> Hn. simpl. rewrite Hn. reflexivity.
  - intros n -> Hn. simpl. rewrite Hn. reflexivity.
  - intros s -> Hblank Hna Hfin. simpl.
    apply String.eqb_neq in Hblank, Hna. rewrite Hblank, Hna, Hfin. reflexivity.
Qed.

(** Decides the comparisons of a rational with the bounds of the presets. *)
Ltac bounds q :=
  unfold lt, ge, le, strict_eq;
  repeat match goal with
         | |- context [Qcompare q ?k] => destruct (Qcompare_spec q k)
         end;
  simpl; try reflexivity; try (exfalso; lra).

(** X12. Every row is in exactly one preset of the PE filter: a row whose
    PE ratio is a finite number (or text that reads as one) is in exactly
    one of the five ranges and not under 'na'; every other row is under
    'na' only. *)
Theorem pe_presets_partition (cell : value) :
  (forall q, coerceNumber Number_of_string cell = Some (Fin q) ->
     exists preset, preset <> "na"
       /\ List.filter (pe_ratio_filterFn Number_of_string cell) pe_presets = [preset])
  /\ (coerceNumber Number_of_string cell = None ->
      List.filter (pe_ratio_filterFn Number_of_string cell) pe_presets = ["na"])
  /\ length (List.filter (pe_ratio_filterFn Number_of_string cell) pe_presets) = 1%nat.
Proof.
  assert (Hnum : forall q, coerceNumber Number_of_string cell = Some (Fin q) ->
            exists preset, preset <> "na"
              /\ List.filter (pe_ratio_filterFn Number_of_string cell) pe_presets = [preset]).
  { intros q Hq. unfold pe_presets, pe_ratio_filterFn. simpl. rewrite Hq. simpl.
    bounds q; eexists; (split; [|reflexivity]); discriminate. }
  assert (Hna : coerceNumber Number_of_string cell = None ->
            List.filter (pe_ratio_filterFn Number_of_string cell) pe_presets = ["na"]).
  { intros Hn. unfold pe_presets, pe_ratio_filterFn. simpl. rewrite Hn. reflexivity. }
  split; [exact Hnum|]. split; [exact Hna|].
  destruct (coerceNumber Number_of_string cell) as [n|] eqn:E.
  - destruct (coerceNumber_some_finite cell n E) as [q ->].
    destruct (Hnum q eq_refl) as [preset [_ ->]]. reflexivity.
  - rewrite (Hna eq_refl). reflexivity.
Qed.

(** X13. The '% above 52W low' presets split the rows that have a number
    into four ranges, each row in exactly one; a row without a number is
    in none of them, so any preset hides it. *)
Theorem above_low_presets_partition (cell : value) :
  (forall q, coerceNumber Number_of_string cell = Some (Fin q) ->
     exists preset,
       List.filter (pct_above_52w_low_filterFn Number_of_string cell) above_low_presets
       = [preset])
  /\ (coerceNumber Number_of_string cell = None ->
      List.filter (pct_above_52w_low_filterFn Number_of_string cell) above_low_presets = [])
  /\ pct_above_52w_low_filterFn Number_of_string cell "" = true.
Proof.
  split; [|split; [|reflexivity]].
  - intros q Hq. unfold above_low_presets, pct_above_52w_low_filterFn. simpl.
    rewrite Hq. simpl. bounds q; eexists; reflexivity.
  - intros Hn. unfold above_low_presets, pct_above_52w_low_filterFn. simpl.
    rewrite Hn. reflexivity.
Qed.

Lemma Qcompare_inject_Z (a b : Z) : Qcompare (inject_Z a) (inject_Z b) = Z.compare a b.
Proof. unfold Qcompare. simpl. rewrite !Z.mul_1_r. reflexivity. Qed.

(** Decides the comparisons of an integer count with the preset bounds. *)
Ltac count_bounds n :=
  unfold lt, ge, le, strict_eq;
  repeat match goal with
         | |- context [Qcompare (inject_Z n) ?k] =>
             change k with (inject_Z (Qnum k));
             rewrite (Qcompare_inject_Z n (Qnum k)); simpl Qnum
         end;
  repeat match goal with
         | |- context [Z.compare n ?k] => destruct (Z.compare_spec n k)
         end;
  simpl; try reflexivity; try (exfalso; lia).

(** X14. The investor-count presets put a stock with one investor under
    '1', with two or three under '2-3', with four or five under '4-5' and
    with six or more under '6+', and under no other; a stock with no
    investor is under none, so any preset hides it. *)
Theorem investor_count_presets_partition (n : Z) :
  let accepted :=
    List.filter (investors_filterFn Number_of_string (of_count n)) investor_count_presets in
  ((n <= 0)%Z -> accepted = [])
  /\ (n = 1%Z -> accepted = ["1"])
  /\ ((2 <= n <= 3)%Z -> accepted = ["2-3"])
  /\ ((4 <= n <= 5)%Z -> accepted = ["4-5"])
  /\ ((6 <= n)%Z -> accepted = ["6+"]).
Proof.
  cbv zeta. unfold investor_count_presets, investors_filterFn, of_count. simpl.
  repeat split; intros Hn; count_bounds n.
Qed.

End PresetFilters.

(** ** The thesis endpoint: headers, status codes, the outbound call *)

Section EndpointDetails.
Import Js Control ThesisApi.

(** Unfolds one invocation of the handler down to its case analysis. *)
Ltac unfold_handler :=
  unfold run, call, handler, try_catch, request_json, fetch, log, return_, throw,
    modify, mbind, mret, eff_bind, eff_ret, bind, ret; simpl.

(** The Perplexity calls a request may cause: none, or the one call made
    for an accepted POST with a ticker, with the configured key. *)
Lemma handler_fetches (env : gmap string string)
    (net : string -> string -> fetch_outcome) (request : Request) :
  fetches (snd (run env net request)) = []
  \/ exists b key tk,
       method request = "POST" /\ body request = BodyObject b
       /\ password_accepted env request
       /\ env !! "PERPLEXITY_API_KEY" = Some key /\ truthy key = true
       /\ ticker b = Some tk /\ truthy tk = true
       /\ fetches (snd (run env net request))
          = [PerplexityFetch ("Bearer " +:+ key)
               (build_prompt tk (company_name b) (investor_names b))].
Proof.
  unfold_handler.
  destruct (String.eqb (method request) "OPTIONS") eqn:Hopt; simpl; [left; reflexivity|].
  destruct (String.eqb_spec (method request) "POST") as [Hpost|Hpost]; simpl;
    [|left; reflexivity].
  destruct (body request) as [| |b] eqn:Hbody; simpl; try (left; reflexivity).
  destruct (falsy (env !! "THESIS_PASSWORD")) eqn:Hconf; simpl; [left; reflexivity|].
  destruct (strict_neq (password b) (env !! "THESIS_PASSWORD")) eqn:Hpw; simpl;
    [left; reflexivity|].
  destruct (falsy (ticker b)) eqn:Htick; simpl; [left; reflexivity|].
  destruct (falsy (env !! "PERPLEXITY_API_KEY")) eqn:Hkey; simpl; [left; reflexivity|].
  right.
  apply strict_neq_false in Hpw. apply falsy_false in Hconf, Htick, Hkey.
  destruct Hconf as [p [Hp _]], Htick as [tk [Htk Htk']], Hkey as [key [Hk Hk']].
  exists b, key, tk.
  split; [exact Hpost|]. split; [reflexivity|].
  split; [exists b, p; rewrite Hpw; auto|].
  split; [exact Hk|]. split; [exact Hk'|]. split; [exact Htk|]. split; [exact Htk'|].
  rewrite Hk, Htk. simpl.
  destruct (net _ _) as [e|r]; simpl; [reflexivity|].
  destruct (ok r); simpl.
  - destruct (content r) as [c|]; simpl; [|reflexivity].
    destruct (truthy (or_else (trim <$> c) "")); reflexivity.
  - destruct (text r); reflexivity.
Qed.

(** The responses of the handler: the preflight, a failure with one of
    four status codes, or a success with the trimmed thesis. *)
Lemma handler_responses (env : gmap string string)
    (net : string -> string -> fetch_outcome) (request : Request) :
  (method request = "OPTIONS" /\ fst (run env net request) = inl preflight)
  \/ (method request <> "OPTIONS"
      /\ exists code message,
           fst (run env net request) = inl (failure code message)
           /\ In code [400; 401; 405; 500]%Z /\ truthy message = true)
  \/ (method request = "POST"
      /\ exists b t,
           body request = BodyObject b /\ truthy t = true /\ trim t = t
           /\ fst (run env net request)
              = inl {| response_body :=
                         Some {| success := true; thesis := Some t; error := None;
                                 response_ticker := ticker b |};
                       status := 200; headers := json_headers |}).
Proof.
  unfold_handler.
  destruct (String.eqb_spec (method request) "OPTIONS") as [Hopt|Hopt]; simpl;
    [left; split; [exact Hopt | reflexivity]|].
  destruct (String.eqb_spec (method request) "POST") as [Hpost|Hpost]; simpl.
  2: { right; left. split; [exact Hopt|]. exists 405%Z, "Method not allowed".
       split; [reflexivity|]. split; [simpl; tauto | reflexivity]. }
  assert (Hfail : forall code message (l : list event),
            In code [400; 401; 405; 500]%Z -> truthy message = true ->
            (method request = "OPTIONS" /\ @inl Response exn (failure code message) = inl preflight)
            \/ (method request <> "OPTIONS"
                /\ exists code' message',
                     @inl Response exn (failure code message) = inl (failure code' message')
                     /\ In code' [400; 401; 405; 500]%Z /\ truthy message' = true)
            \/ (method request = "POST"
                /\ exists b t,
                     body request = BodyObject b /\ truthy t = true /\ trim t = t
                     /\ @inl Response exn (failure code message)
                        = inl {| response_body :=
                                   Some {| success := true; thesis := Some t; error := None;
                                           response_ticker := ticker b |};
                                 status := 200; headers := json_headers |})).
  { intros code message _ Hcode Hmsg. right; left. split; [exact Hopt|]. eauto. }
  destruct (body request) as [| |b] eqn:Hbody; simpl;
    try (apply (Hfail 500%Z "Internal server error" []); [simpl; tauto | reflexivity]).
  destruct (falsy (env !! "THESIS_PASSWORD")); simpl;
    [apply (Hfail 500%Z "Server not configured" []); [simpl; tauto | reflexivity]|].
  destruct (strict_neq (password b) (env !! "THESIS_PASSWORD")); simpl;
    [apply (Hfail 401%Z "Invalid password" []); [simpl; tauto | reflexivity]|].
  destruct (falsy (ticker b)); simpl;
    [apply (Hfail 400%Z "Ticker is required" []); [simpl; tauto | reflexivity]|].
  destruct (falsy (env !! "PERPLEXITY_API_KEY")); simpl;
    [apply (Hfail 500%Z "Perplexity API not configured" []); [simpl; tauto | reflexivity]|].
  destruct (net _ _) as [e|r]; simpl;
    [apply (Hfail 500%Z "Internal server error" []); [simpl; tauto | reflexivity]|].
  destruct (ok r); simpl.
  - destruct (content r) as [c|]; simpl;
      [|apply (Hfail 500%Z "Internal server error" []); [simpl; tauto | reflexivity]].
    destruct (truthy (or_else (trim <$> c) "")) eqn:Hth; simpl;
      [|apply (Hfail 500%Z "No thesis generated" []); [simpl; tauto | reflexivity]].
    right; right. split; [exact Hpost|].
    exists b, (or_else (trim <$> c) ""). split; [reflexivity|]. split; [exact Hth|].
    split; [|reflexivity].
    destruct c as [c|]; simpl in Hth |- *; [|discriminate].
    destruct (truthy (trim c)); [apply trim_twice | discriminate].
  - destruct (text r); simpl;
      [apply (Hfail 500%Z "Failed to generate thesis" []); [simpl; tauto | reflexivity]
      |apply (Hfail 500%Z "Internal server error" []); [simpl; tauto | reflexivity]].
Qed.

(** X15. Every response of the handler, the preflight and every error
    included, carries [Access-Control-Allow-Origin: *], and every response
    but the preflight is typed [application/json]. *)
Theorem handler_always_sends_cors (env : gmap string string)
    (net : string -> string -> fetch_outcome) (request : Request) :
  exists resp,
    fst (run env net request) = inl resp
    /\ In ("Access-Control-Allow-Origin", "*") (headers resp)
    /\ (method request <> "OPTIONS" ->
        In ("Content-Type", "application/json") (headers resp)).
Proof.
  destruct (handler_responses env net request)
    as [[Hopt Hrun]|[[Hopt [code [message [Hrun _]]]]|[Hpost [b [t [_ [_ [_ Hrun]]]]]]]];
    eexists; (split; [exact Hrun|]); simpl; split; try tauto.
Qed.

(** X16. For every request but a preflight the status code tells the
    outcome: 200 comes with [success: true], a thesis that is not empty
    and has no surrounding white space, and the ticker of the request;
    every [success: false] comes with 400, 401, 405 or 500 and a message. *)
Theorem handler_status_tells_outcome (env : gmap string string)
    (net : string -> string -> fetch_outcome) (request : Request) :
  method request <> "OPTIONS" ->
  exists resp r,
    fst (run env net request) = inl resp
    /\ response_body resp = Some r
    /\ (success r = true <-> status resp = 200%Z)
    /\ (success r = true ->
        exists b t, body request = BodyObject b /\ thesis r = Some t
                    /\ truthy t = true /\ trim t = t
                    /\ response_ticker r = ticker b /\ error r = None)
    /\ (success r = false ->
        In (status resp) [400; 401; 405; 500]%Z
        /\ exists message, error r = Some message /\ truthy message = true).
Proof.
  intros Hopt.
  destruct (handler_responses env net request)
    as [[Hopt' _]|[[_ [code [message [Hrun [Hcode Hmsg]]]]]|[_ [b [t [Hb [Ht [Htrim Hrun]]]]]]]].
  - contradiction.
  - do 2 eexists. split; [exact Hrun|]. split; [reflexivity|]. simpl.
    split; [|split].
    + split; [discriminate|]. intros ->. simpl in Hcode.
      destruct Hcode as [H|[H|[H|[H|[]]]]]; discriminate H.
    + discriminate.
    + intros _. split; [exact Hcode | eauto].
  - do 2 eexists. split; [exact Hrun|]. split; [reflexivity|]. simpl.
    split; [tauto|]. split; [|discriminate].
    intros _. exists b, t. repeat split; first [assumption | reflexivity].
Qed.

Lemma handler_status_tells_outcome_witness :
  exists resp r,
    fst (run Samples.env Samples.answering Samples.authorized_request) = inl resp
    /\ response_body resp = Some r
    /\ (success r = true <-> status resp = 200%Z)
    /\ (success r = true ->
        exists b t, body Samples.authorized_request = BodyObject b /\ thesis r = Some t
                    /\ truthy t = true /\ trim t = t
                    /\ response_ticker r = ticker b /\ error r = None)
    /\ (success r = false ->
        In (status resp) [400; 401; 405; 500]%Z
        /\ exists message, error r = Some message /\ truthy message = true).
Proof.
  apply (handler_status_tells_outcome Samples.env Samples.answering
           Samples.authorized_request).
  discriminate.
Defined.

(** X17. A request causes at most one call of the Perplexity API, and a
    call only for a POST that carries the configured password and a
    ticker; the call is authorised with the configured key and its prompt
    is built from the ticker, company and investors of the request. *)
Theorem handler_calls_perplexity_once (env : gmap string string)
    (net : string -> string -> fetch_outcome) (request : Request) :
  (length (fetches (snd (run env net request))) <= 1)%nat
  /\ (fetches (snd (run env net request)) <> [] ->
      exists b key tk,
        method request = "POST" /\ body request = BodyObject b
        /\ password_accepted env request
        /\ env !! "PERPLEXITY_API_KEY" = Some key /\ truthy key = true
        /\ ticker b = Some tk /\ truthy tk = true
        /\ fetches (snd (run env net request))
           = [PerplexityFetch ("Bearer " +:+ key)
                (build_prompt tk (company_name b) (investor_names b))]).
Proof.
  destruct (handler_fetches env net request) as [Hnone|Hone].
  - rewrite Hnone. split; [simpl; lia | intros H; contradiction].
  - split; [|intros _; exact Hone].
    destruct Hone as [b [key [tk [_ [_ [_ [_ [_ [_ [_ ->]]]]]]]]]]. simpl. lia.
Qed.

(** X18. The prompt names at most the first five investors of the
    request: any investor after the fifth changes nothing, and an empty
    list of investors reads like a missing one. *)
Theorem build_prompt_first_five (tk : string) (company : option string)
    (names : list string) :
  build_prompt tk company (Some names) = build_prompt tk company (Some (firstn 5 names))
  /\ build_prompt tk company (Some []) = build_prompt tk company None.
Proof.
  split; [|reflexivity].
  unfold build_prompt, slice0.
  destruct names as [|a names]; [reflexivity|].
  rewrite firstn_firstn. reflexivity.
Qed.

End EndpointDetails.

(** ** The Generate button: sessions, and the endpoint behind it *)

Section GenerateButton.
Import Js Control StockTypes StockColumns ThesisGenerator.

(** Unfolds one click down to its case analysis. *)
Ltac unfold_click :=
  unfold click, click_in, call, handleGenerate, try_finally, try_catch, fetch,
    response_json, window_prompt, setError, setIsLoading, sessionStorage_getItem,
    sessionStorage_setItem, onThesisUpdate,
    return_, throw, get, modify, mbind, mret, eff_bind, eff_ret, bind, ret; simpl.

(** Settles the facts about the outcome of a click and the world it
    leaves, once the run has been evaluated. *)
Ltac settle :=
  eexists; eexists; split; [reflexivity|]; simpl;
  repeat match goal with
         | |- _ /\ _ => split
         end;
  try (intros; discriminate);
  try (intros; reflexivity);
  try (rewrite ?length_app; simpl; lia);
  try (intros k Hk; first [reflexivity | apply lookup_insert_ne; congruence]);
  try (intros e He; injection He as <-; repeat split; auto; fail);
  try (intros; congruence).

(** X19. The promise of a click rejects only with an exception thrown by
    [sessionStorage] or [window.prompt], which are called before the
    [try]. With no request in flight, an exception of [getItem] always
    rejects it, one of [prompt] when no password is stored, one of
    [setItem] when a password was typed. Then no request was sent and no
    thesis reported, the loading flag stays off and the error state is
    empty, so nothing of the failure is shown. Nothing that [fetch] or
    [response.json()] does rejects the promise: in a browser whose
    storage and prompt do not throw, every click resolves. In every case
    a click leaves the loading flag off if no request was in flight,
    opens at most one dialog, reports at most one thesis, and writes to no
    session key but [thesis_password]. *)
Theorem click_rejects_only_before_try (browser : Browser)
    (prompt_answer : option string)
    (api : ThesisApi.ThesisRequest -> fetch_outcome) (stock : Stock) (w : World) :
  exists outcome w',
    click_in browser prompt_answer api stock w = (outcome, w')
    /\ (forall e, outcome = inr e ->
          (getItem_throws browser = Some e \/ prompt_throws browser = Some e
           \/ setItem_throws browser = Some e)
          /\ isLoading w = false /\ isLoading w' = false /\ error w' = None
          /\ requests w' = requests w /\ updates w' = updates w)
    /\ (getItem_throws browser = None -> prompt_throws browser = None ->
        setItem_throws browser = None -> outcome = inl tt)
    /\ (forall e, isLoading w = false -> getItem_throws browser = Some e ->
          outcome = inr e)
    /\ (forall e, isLoading w = false -> getItem_throws browser = None ->
          ThesisApi.falsy (sessionStorage w !! "thesis_password") = true ->
          prompt_throws browser = Some e -> outcome = inr e)
    /\ (forall e, isLoading w = false -> getItem_throws browser = None ->
          ThesisApi.falsy (sessionStorage w !! "thesis_password") = true ->
          prompt_throws browser = None -> truthy (or_else prompt_answer "") = true ->
          setItem_throws browser = Some e -> outcome = inr e)
    /\ (isLoading w = false -> isLoading w' = false)
    /\ (length (dialogs w') <= S (length (dialogs w)))%nat
    /\ (length (updates w') <= S (length (updates w)))%nat
    /\ (forall k, k <> "thesis_password" ->
          sessionStorage w' !! k = sessionStorage w !! k).
Proof.
  destruct browser as [getItem prompt setItem].
  unfold_click.
  destruct (isLoading w) eqn:Hl; simpl; [settle|].
  destruct getItem as [e1|]; simpl; [settle|].
  destruct (ThesisApi.falsy (sessionStorage w !! "thesis_password")); simpl.
  - destruct prompt as [e2|]; simpl; [settle|].
    destruct (truthy (or_else prompt_answer "")); simpl; [|settle].
    destruct setItem as [e3|]; simpl; [settle|].
    destruct (api _) as [[m|]|ok [[m|]|payload]]; simpl; try settle.
    destruct (negb ok || negb (payload_success payload))%bool; simpl; settle.
  - destruct (api _) as [[m|]|ok [[m|]|payload]]; simpl; try settle.
    destruct (negb ok || negb (payload_success payload))%bool; simpl; settle.
Qed.





(** What the endpoint answers to a request without the configured password. *)
Lemma served_wrong_password (env : gmap string string)
    (net : string -> string -> ThesisApi.fetch_outcome) (b : ThesisApi.ThesisRequest)
    (configured : string) :
  env !! "THESIS_PASSWORD" = Some configured -> truthy configured = true ->
  ThesisApi.password b <> Some configured ->
  Deployment.served env net b
  = Resolved false
      (JsonValue (Some {| ThesisApi.success := false; ThesisApi.thesis := None;
                          ThesisApi.error := Some "Invalid password";
                          ThesisApi.response_ticker := None |})).
Proof.
  intros Henv Ht Hne.
  unfold Deployment.served, ThesisApi.run, call, ThesisApi.handler, try_catch,
    ThesisApi.request_json, return_, mbind, mret, eff_bind, eff_ret, bind, ret. simpl.
  rewrite Henv. simpl. rewrite Ht. simpl.
  destruct (ThesisApi.strict_neq (ThesisApi.password b) (Some configured)) eqn:E;
    [reflexivity|].
  apply strict_neq_false in E. contradiction.
Qed.

(** X21. Against the deployed endpoint, a click that sends a password
    other than the configured THESIS_PASSWORD ends with 'Invalid password'
    in the error state and no thesis reported, and the wrong password
    stays in the session. *)
Theorem wrong_password_end_to_end (env : gmap string string)
    (net : string -> string -> ThesisApi.fetch_outcome) (prompt_answer : option string)
    (stock : Stock) (w : World) (configured password : string) :
  env !! "THESIS_PASSWORD" = Some configured -> truthy configured = true ->
  isLoading w = false ->
  sessionStorage w !! "thesis_password" = Some password -> truthy password = true ->
  password <> configured ->
  exists w',
    click prompt_answer (Deployment.served env net) stock w = (inl tt, w')
    /\ error w' = Some "Invalid password"
    /\ updates w' = updates w
    /\ isLoading w' = false
    /\ sessionStorage w' !! "thesis_password" = Some password.
Proof.
  intros Henv Hconf Hl Hs Ht Hne.
  assert (Hserved : Deployment.served env net (request_for stock password)
                    = Resolved false
                        (JsonValue (Some {| ThesisApi.success := false;
                                            ThesisApi.thesis := None;
                                            ThesisApi.error := Some "Invalid password";
                                            ThesisApi.response_ticker := None |}))).
  { apply (served_wrong_password env net _ configured Henv Hconf).
    simpl. congruence. }
  unfold_click. rewrite Hl. simpl. rewrite Hs. simpl. rewrite Ht. simpl.
  rewrite Hserved. simpl.
  eexists. repeat split. simpl. exact Hs.
Qed.

Lemma wrong_password_end_to_end_witness :
  exists w',
    click None (Deployment.served Samples.env Samples.answering) Samples.aapl
      Samples.at_rest = (inl tt, w')
    /\ error w' = Some "Invalid password"
    /\ updates w' = updates Samples.at_rest
    /\ isLoading w' = false
    /\ sessionStorage w' !! "thesis_password" = Some "guess".
Proof.
  apply (wrong_password_end_to_end Samples.env Samples.answering None Samples.aapl
           Samples.at_rest "secret" "guess"); try reflexivity.
  discriminate.
Defined.

(** X22. Against the deployed endpoint, with the configured password in
    the session, a configured API key and a Perplexity answer whose
    content is not blank, a click on a stock with a ticker reports the
    trimmed content as the thesis of that ticker and leaves no error. *)
Theorem thesis_end_to_end (env : gmap string string)
    (net : string -> string -> ThesisApi.fetch_outcome) (prompt_answer : option string)
    (stock : Stock) (w : World) (configured key content : string)
    (r : ThesisApi.PerplexityResponse) :
  env !! "THESIS_PASSWORD" = Some configured -> truthy configured = true ->
  env !! "PERPLEXITY_API_KEY" = Some key -> truthy key = true ->
  isLoading w = false ->
  sessionStorage w !! "thesis_password" = Some configured ->
  truthy (ticker stock) = true ->
  net ("Bearer " +:+ key)
      (ThesisApi.build_prompt (ticker stock) (Some (company_name stock))
         (Some (map name (investors (dataroma_data stock)))))
  = ThesisApi.Resolved r ->
  ThesisApi.ok r = true -> ThesisApi.content r = Some (Some content) ->
  truthy (trim content) = true ->
  exists w',
    click prompt_answer (Deployment.served env net) stock w = (inl tt, w')
    /\ updates w' = updates w ++ [(ticker stock, trim content)]
    /\ error w' = None
    /\ isLoading w' = false.
Proof.
  intros Henv Hconf Hkey Hkey' Hl Hs Htick Hnet Hok Hcontent Hthesis.
  assert (Hserved : Deployment.served env net (request_for stock configured)
                    = Resolved true
                        (JsonValue (Some {| ThesisApi.success := true;
                                            ThesisApi.thesis := Some (trim content);
                                            ThesisApi.error := None;
                                            ThesisApi.response_ticker :=
                                              Some (ticker stock) |}))).
  { unfold Deployment.served, ThesisApi.run, call, ThesisApi.handler, try_catch,
      ThesisApi.request_json, ThesisApi.fetch, ThesisApi.log, return_, throw, modify,
      mbind, mret, eff_bind, eff_ret, bind, ret. simpl.
    rewrite Henv. simpl. rewrite Hconf. simpl. rewrite String.eqb_refl. simpl.
    rewrite Htick. simpl. rewrite Hkey. simpl. rewrite Hkey'. simpl.
    rewrite Hnet. simpl. rewrite Hok. simpl. rewrite Hcontent. simpl.
    rewrite Hthesis. simpl. rewrite Hthesis. reflexivity. }
  unfold_click. rewrite Hl. simpl. rewrite Hs. simpl. rewrite Hconf. simpl.
  rewrite Hserved. simpl. rewrite Hthesis.
  eexists. repeat split.
Qed.

Lemma thesis_end_to_end_witness :
  exists w',
    click None (Deployment.served Samples.env Samples.answering) Samples.aapl
      Fixtures.signed_in = (inl tt, w')
    /\ updates w' = updates Fixtures.signed_in ++ [("AAPL", trim " Durable cash flows. ")]
    /\ error w' = None
    /\ isLoading w' = false.
Proof.
  apply (thesis_end_to_end Samples.env Samples.answering None Samples.aapl
           Fixtures.signed_in "secret" "key" " Durable cash flows. " Fixtures.answer);
    reflexivity.
Defined.

End GenerateButton.

(** ** Escaping and truncation *)

Section EscapeAndTruncate.
Import Js StockTypes StockColumns.

Lemma has_char_append (c : ascii) (a b : string) :
  has_char c (a +:+ b) = (has_char c a || has_char c b)%bool.
Proof.
  induction a as [|x a IH]; simpl; [reflexivity|]. rewrite IH. apply orb_assoc.
Qed.

Lemma escape_char_clean (c : ascii) :
  has_char "<"%char (Dashboard.escape_char c) = false
  /\ has_char ">"%char (Dashboard.escape_char c) = false
  /\ has_char (ascii_of_nat 34) (Dashboard.escape_char c) = false
  /\ has_char "'"%char (Dashboard.escape_char c) = false.
Proof. destruct c as [[] [] [] [] [] [] [] []]; repeat split; reflexivity. Qed.

Lemma escape_char_plain (c : ascii) :
  Ascii.eqb c "&"%char = false -> Ascii.eqb c "<"%char = false ->
  Ascii.eqb c ">"%char = false -> Ascii.eqb c (ascii_of_nat 34) = false ->
  Ascii.eqb c "'"%char = false ->
  Dashboard.escape_char c = String c EmptyString.
Proof.
  destruct c as [[] [] [] [] [] [] [] []]; simpl; intros; try reflexivity; discriminate.
Qed.

(** X23. The output of [escapeHtml] contains no less-than sign, no
    greater-than sign, no double quote and no apostrophe, whatever the
    text; a text with none of these and no ampersand is left as it is. *)
Theorem escapeHtml_leaves_no_markup (text : string) :
  has_char "<"%char (Dashboard.escapeHtml text) = false
  /\ has_char ">"%char (Dashboard.escapeHtml text) = false
  /\ has_char (ascii_of_nat 34) (Dashboard.escapeHtml text) = false
  /\ has_char "'"%char (Dashboard.escapeHtml text) = false
  /\ (has_char "&"%char text = false -> has_char "<"%char text = false ->
      has_char ">"%char text = false -> has_char (ascii_of_nat 34) text = false ->
      has_char "'"%char text = false ->
      Dashboard.escapeHtml text = text).
Proof.
  induction text as [|c text IH]; [repeat split; reflexivity|].
  destruct IH as [H1 [H2 [H3 [H4 H5]]]].
  destruct (escape_char_clean c) as [C1 [C2 [C3 C4]]].
  change (Dashboard.escapeHtml (String c text))
    with (Dashboard.escape_char c +:+ Dashboard.escapeHtml text).
  rewrite !has_char_append, H1, H2, H3, H4, C1, C2, C3, C4.
  repeat split. simpl.
  intros A1 A2 A3 A4 A5.
  apply orb_false_iff in A1, A2, A3, A4, A5.
  destruct A1 as [A1 A1'], A2 as [A2 A2'], A3 as [A3 A3'], A4 as [A4 A4'], A5 as [A5 A5'].
  rewrite (escape_char_plain c A1 A2 A3 A4 A5), (H5 A1' A2' A3' A4' A5'). reflexivity.
Qed.

Lemma length_append (a b : string) :
  String.length (a +:+ b) = (String.length a + String.length b)%nat.
Proof. induction a as [|c a IH]; simpl; [reflexivity | rewrite IH; reflexivity]. Qed.

Lemma length_substring_prefix (n : nat) (s : string) :
  (n <= String.length s)%nat -> String.length (String.substring 0 n s) = n.
Proof.
  revert s. induction n as [|n IH]; intros s Hn; [destruct s; reflexivity|].
  destruct s as [|c s]; simpl in *; [lia|]. rewrite IH by lia. reflexivity.
Qed.

(** A company name of more than 30 characters is shown as its first
    30 characters and three dots, 33 characters in all; a shorter name is
    shown whole. The thesis column shows a dash for a missing or empty
    thesis. *)
Theorem render_company_name_bound (data : string) :
  (String.length (Dashboard.render_company_name data) <= 33)%nat
  /\ ((String.length data <= 30)%nat -> Dashboard.render_company_name data = data)
  /\ ((30 < String.length data)%nat ->
      Dashboard.render_company_name data = String.substring 0 30 data +:+ "..."
      /\ String.length (Dashboard.render_company_name data) = 33%nat)
  /\ Dashboard.render_thesis None = "-"
  /\ Dashboard.render_thesis (Some "") = "-".
Proof.
  unfold Dashboard.render_company_name.
  destruct (Nat.ltb_spec 30 (String.length data)) as [Hlong|Hshort].
  - assert (Hlen : String.length (String.substring 0 30 data +:+ "...") = 33%nat).
    { rewrite length_append, length_substring_prefix by lia. reflexivity. }
    rewrite Hlen. repeat split; try lia; try reflexivity.
  - repeat split; try lia; try reflexivity.
Qed.

(** X24. The thesis cell of the table shows the Generate button exactly
    when the stock has no thesis or a blank one; otherwise it shows the
    trimmed thesis, whole in the tooltip and cut to 80 characters and
    three dots in the cell when it is longer than that. *)
Theorem thesis_cell_button_or_text (stock : Stock) (w : ThesisGenerator.World) :
  let thesis := or_else (trim <$> thesis stock) "" in
  (thesis = "" ->
   exists children,
     ThesisGenerator.render stock w
     = Element "div" "flex flex-col items-start gap-1" [] children)
  /\ (thesis <> "" ->
      exists text,
        ThesisGenerator.render stock w
        = Element "span" "truncate max-w-[220px] block text-sm text-gray-600"
            [("title", thesis)] [Text text]
        /\ (String.length text <= 83)%nat
        /\ ((String.length thesis <= 80)%nat -> text = thesis)
        /\ ((80 < String.length thesis)%nat ->
            text = String.substring 0 80 thesis +:+ "...")
        /\ exists t, StockTypes.thesis stock = Some t /\ thesis = trim t).
Proof.
  cbv zeta. unfold ThesisGenerator.render.
  set (thesis := or_else (trim <$> StockTypes.thesis stock) "").
  split.
  - intros E. rewrite E. simpl. eauto.
  - intros Hne. destruct (truthy thesis) eqn:Ht; [|destruct thesis; [congruence|discriminate]].
    eexists. split; [reflexivity|].
    split; [|split; [|split]].
    + destruct (Nat.ltb_spec 80 (String.length thesis)) as [Hlong|Hshort]; [|lia].
      rewrite length_append, length_substring_prefix by lia. simpl. lia.
    + intros Hshort.
      destruct (Nat.ltb_spec 80 (String.length thesis)) as [Hlong|_]; [lia | reflexivity].
    + intros Hlong.
      destruct (Nat.ltb_spec 80 (String.length thesis)) as [_|Hshort]; [reflexivity | lia].
    + unfold thesis in *. destruct (StockTypes.thesis stock) as [t|]; simpl in *;
        [|discriminate].
      exists t. split; [reflexivity|]. destruct (truthy (trim t)); [reflexivity|discriminate].
Qed.

End EscapeAndTruncate.

(** ** The column picker and the multi-select *)

Section Pickers.
Import Js StockTypes.

Lemma concat_rendered_groups (groups : list (column_group * list ColumnConfig)) :
  concat (map snd (List.filter (fun entry => (0 <? length (snd entry))%nat) groups))
  = concat (map snd groups).
Proof.
  induction groups as [|[g cols] groups IH]; [reflexivity|]. simpl.
  destruct cols as [|c cols]; simpl; [exact IH | rewrite IH; reflexivity].
Qed.

(** X25. The column picker shows one checkbox for every column of the
    configuration and no other: the checkboxes, group after group, are a
    rearrangement of the columns; each rendered group is not empty and
    holds, in configuration order, the columns of its group. *)
Theorem column_picker_lists_every_column (columns : list ColumnConfig) :
  Permutation (ColumnPicker.checkboxes columns) columns
  /\ (forall g cols, In (g, cols) (ColumnPicker.rendered_groups columns) ->
        cols <> []
        /\ cols = List.filter (fun c => ColumnPicker.group_eqb (group c) g) columns).
Proof.
  split.
  - unfold ColumnPicker.checkboxes, ColumnPicker.rendered_groups.
    rewrite concat_rendered_groups. unfold ColumnPicker.groupedColumns. simpl.
    rewrite app_nil_r.
    induction columns as [|c columns IH]; [reflexivity|].
    simpl. destruct (group c); simpl.
    + apply perm_skip. exact IH.
    + rewrite <- Permutation_middle. apply perm_skip. exact IH.
    + rewrite app_assoc, <- Permutation_middle, <- app_assoc. apply perm_skip. exact IH.
    + rewrite !app_assoc, <- Permutation_middle, <- !app_assoc. apply perm_skip. exact IH.
    + rewrite !app_assoc, <- Permutation_middle, <- !app_assoc. apply perm_skip. exact IH.
  - intros g cols Hin. unfold ColumnPicker.rendered_groups in Hin.
    apply filter_In in Hin. destruct Hin as [Hin Hlen]. simpl in Hlen.
    split; [intros E; subst; discriminate|].
    unfold ColumnPicker.groupedColumns in Hin. simpl in Hin.
    destruct Hin as [H|[H|[H|[H|[H|[]]]]]]; injection H as <- <-; reflexivity.
Qed.

Lemma includes_filter (p : string -> bool) (l : list string) (x : string) :
  includes (List.filter p l) x = (includes l x && p x)%bool.
Proof.
  unfold includes. induction l as [|a l IH]; [reflexivity|]. simpl.
  destruct (p a) eqn:Hp; simpl; rewrite IH.
  - destruct (String.eqb_spec x a) as [->|Hne]; simpl; [rewrite Hp|]; reflexivity.
  - destruct (String.eqb_spec x a) as [->|Hne]; simpl; [rewrite Hp|]; try reflexivity.
    apply andb_false_r.
Qed.

(** X26. Ticking an option of a multi-select flips its membership in the
    selection and that of no other value, and a selection without
    repetition stays without repetition. *)
Theorem toggleValue_flips_membership (values : list string) (value : string) :
  (forall other,
     includes (FilterBar.toggleValue values value) other
     = if String.eqb value other then negb (includes values value)
       else includes values other)
  /\ (List.NoDup values -> List.NoDup (FilterBar.toggleValue values value)).
Proof.
  split.
  - intros other. unfold FilterBar.toggleValue.
    destruct (includes values value) eqn:Hin.
    + rewrite includes_filter. rewrite (String.eqb_sym other value).
      destruct (String.eqb_spec value other) as [<-|Hne]; simpl.
      * apply andb_false_r.
      * apply andb_true_r.
    + unfold includes in *. rewrite existsb_app. simpl. rewrite orb_false_r.
      rewrite (String.eqb_sym other value).
      destruct (String.eqb_spec value other) as [<-|Hne]; simpl.
      * rewrite Hin. reflexivity.
      * apply orb_false_r.
  - intros Hnd. unfold FilterBar.toggleValue.
    destruct (includes values value) eqn:Hin.
    + apply List.NoDup_filter. exact Hnd.
    + apply List.NoDup_app; [exact Hnd | constructor; [simpl; tauto | constructor] |].
      intros a Ha [<-|[]]. apply includes_spec in Ha. congruence.
Qed.

End Pickers.

(** ** Loading the data file *)

Section LoadingData.
Import Js Control StockTypes UseStockData.

(** X27. The load of the data file always settles: the hook stops
    loading and never rejects. It holds the parsed body, and no error,
    exactly when the response is ok and its body parses: the page then
    shows the dashboard when the body is the data, and nothing at all,
    neither table nor error, when the body is null or another falsy
    value. A status that is not ok gives the error
    'HTTP error! status: N' without the body being read; every other
    failure gives an error and no data, and the page shows the error
    message, if it is not empty, instead of the table. *)
Theorem stock_data_load_settles (net : string -> fetch_outcome) :
  exists s,
    loaded net = (inl tt, s)
    /\ loading s = false
    /\ (forall status body,
          net "./data/stocks.json" = Resolved true status (JsonValue body) ->
          data s = body /\ error s = None
          /\ App.render_view (loading s) (error s) (App.setTableData_effect (data s) None)
             = match body with
               | Some d => App.DashboardView d
               | None => App.NoView
               end)
    /\ (forall status json,
          net "./data/stocks.json" = Resolved false status json ->
          data s = None /\ error s = Some ("HTTP error! status: " +:+ pretty status))
    /\ ((forall status body,
           net "./data/stocks.json" <> Resolved true status (JsonValue body)) ->
        data s = None
        /\ exists message,
             error s = Some message
             /\ (truthy message = true ->
                 App.render_view (loading s) (error s)
                   (App.setTableData_effect (data s) None)
                 = App.ErrorView message)).
Proof.
  unfold loaded, call, fetchData, try_catch, setData, setLoading, setError, console_error,
    throw, modify, mbind, mret, eff_bind, eff_ret, bind, ret.
  destruct (net "./data/stocks.json") as [[m|]|[|] status [[m|]|body]]; simpl;
    eexists; (split; [reflexivity|]); simpl; (split; [reflexivity|]);
    (split; [intros status' body' H; try discriminate H|]);
    try (injection H as <- <-; destruct body; repeat split; reflexivity);
    (split; [intros status' json' H; try discriminate H|]);
    try (injection H as <- <-; split; reflexivity);
    intros Hnot;
    try (exfalso; eapply Hnot; reflexivity);
    (split; [reflexivity|]); eexists; (split; [reflexivity|]);
    intros Ht; unfold App.render_view; simpl; try rewrite Ht; reflexivity.
Qed.

(** An ok response whose body is the JSON value null: the page is blank. *)
Example null_data_file_shows_nothing :
  exists s,
    loaded (fun _ => Resolved true 200 (JsonValue None)) = (inl tt, s)
    /\ data s = None /\ error s = None /\ loading s = false
    /\ App.render_view (loading s) (error s) (App.setTableData_effect (data s) None)
       = App.NoView.
Proof. eexists. repeat split; reflexivity. Qed.

Example missing_data_file_shows_status :
  exists s,
    loaded Fixtures.not_found = (inl tt, s)
    /\ error s = Some "HTTP error! status: 404"
    /\ App.render_view (loading s) (error s) (App.setTableData_effect (data s) None)
       = App.ErrorView "HTTP error! status: 404".
Proof. eexists. repeat split; reflexivity. Qed.

End LoadingData.

(** ** The App that filters the stocks itself *)

Section HandFiltering.
Import Js StockTypes FilteringApp.

Lemma filter_twice {A} (f g : A -> bool) (l : list A) :
  List.filter f (List.filter g l) = List.filter (fun x => g x && f x) l.
Proof.
  induction l as [|x l IH]; [reflexivity|]. simpl.
  destruct (g x); simpl; [destruct (f x)|]; rewrite ?IH; reflexivity.
Qed.

Lemma keeps_both (activityFilter searchQuery : string) (stock : Stock) :
  keeps both activityFilter searchQuery stock
  = (keeps dataroma activityFilter searchQuery stock && keeps substack "all" "" stock)%bool.
Proof.
  unfold keeps. simpl.
  destruct (includes (sources stock) "Dataroma"), (includes (sources stock) "Substack");
    simpl; try reflexivity;
    repeat match goal with
           | |- context [if ?c then _ else _] => destruct c; simpl; try reflexivity
           end.
Qed.

(** X28. With the source and activity filters on 'all' and an empty search
    every stock is shown, in order; any choice of filters shows a
    selection of the stocks in their order; and the 'both' source filter
    shows exactly the stocks that the 'dataroma' filter shows and that
    have the Substack source as well. *)
Theorem filteredStocks_selects (sourceFilter : source_filter)
    (activityFilter searchQuery : string) (data : StockData) :
  filteredStocks all "all" "" data = stocks data
  /\ sublist (filteredStocks sourceFilter activityFilter searchQuery data) (stocks data)
  /\ filteredStocks both activityFilter searchQuery data
     = List.filter (fun stock => includes (sources stock) "Substack")
         (filteredStocks dataroma activityFilter searchQuery data).
Proof.
  split; [|split].
  - unfold filteredStocks. induction (stocks data) as [|x l IH]; [reflexivity|].
    simpl. rewrite IH. reflexivity.
  - unfold filteredStocks. induction (stocks data) as [|x l IH]; [constructor|].
    simpl. destruct (keeps _ _ _ x); [apply sublist_skip | apply sublist_cons]; exact IH.
  - unfold filteredStocks. rewrite filter_twice. apply List.filter_ext.
    intros stock. rewrite keeps_both. f_equal.
    unfold keeps. simpl. destruct (includes (sources stock) "Substack"); reflexivity.
Qed.

End HandFiltering.
